(** * TPU device-to-device copy (tensorflow/core/tpu/tpu_node_device.cc)

    A shallow embedding of [TpuDeviceToDeviceCopy] and of the helpers it
    uses.  The function talks to a number of collaborators (platform,
    streams, transfer manager, XLA tensors).  Every call it makes on one of
    them is appended to a chronological [trace]; what the collaborator
    answers is read from a record of oracles, [Env].  The early returns of
    the [impl] lambda are modelled by a small state-and-return monad. *)

From Stdlib Require Import List String NArith ZArith Arith Bool Lia.
From Stdlib Require Import DecimalString DecimalPos DecimalZ.
Import ListNotations.
Open Scope string_scope.

Set Implicit Arguments.

(** ** Status values *)

(** Modelled from the spec: [Status], its error codes and [StatusOr] are
    declared outside this file.  A status is OK or carries an error kind and
    a descriptive message (section 7). *)
Module error.
Inductive Code :=
| CANCELLED | UNKNOWN | INVALID_ARGUMENT | DEADLINE_EXCEEDED | NOT_FOUND
| ALREADY_EXISTS | PERMISSION_DENIED | UNAUTHENTICATED | RESOURCE_EXHAUSTED
| FAILED_PRECONDITION | ABORTED | OUT_OF_RANGE | UNIMPLEMENTED | INTERNAL
| UNAVAILABLE | DATA_LOSS.
End error.

Inductive Status :=
| OK
| Error (code : error.Code) (message : string).

Definition ok (s : Status) : bool :=
  match s with OK => true | Error _ _ => false end.

Definition is_internal (s : Status) : bool :=
  match s with Error error.INTERNAL _ => true | _ => false end.

(** Modelled from the spec: [StatusOr<T>] is a value, or a status that is
    not OK (section 6, [physicalShape | Error]). *)
Inductive StatusOr (A : Type) :=
| Value (a : A)
| Failure (code : error.Code) (message : string).
Arguments Failure {A} code message.

(** ** Data *)

(** [se::Stream*]: streams are identified by their address. *)
Definition Stream := nat.

(** Modelled from the spec: the enumeration [DataType] and [DataTypeString]
    are declared outside this file.  The copy compares the data types of
    source and destination (section 4.1 (c)) and prints their names in the
    failure message. *)
Inductive DataType :=
| DT_INVALID | DT_FLOAT | DT_DOUBLE | DT_INT32 | DT_UINT8 | DT_INT16 | DT_INT8
| DT_STRING | DT_COMPLEX64 | DT_INT64 | DT_BOOL | DT_QINT8 | DT_QUINT8
| DT_QINT32 | DT_BFLOAT16 | DT_QINT16 | DT_QUINT16 | DT_UINT16
| DT_COMPLEX128 | DT_HALF | DT_RESOURCE | DT_VARIANT | DT_UINT32 | DT_UINT64.

Definition DataType_eq_dec (a b : DataType) : {a = b} + {a <> b}.
Proof. decide equality. Defined.

Definition DataType_eqb (a b : DataType) : bool :=
  if DataType_eq_dec a b then true else false.

Definition DataTypeString (d : DataType) : string :=
  match d with
  | DT_INVALID => "INVALID" | DT_FLOAT => "float" | DT_DOUBLE => "double"
  | DT_INT32 => "int32" | DT_UINT8 => "uint8" | DT_INT16 => "int16"
  | DT_INT8 => "int8" | DT_STRING => "string" | DT_COMPLEX64 => "complex64"
  | DT_INT64 => "int64" | DT_BOOL => "bool" | DT_QINT8 => "qint8"
  | DT_QUINT8 => "quint8" | DT_QINT32 => "qint32" | DT_BFLOAT16 => "bfloat16"
  | DT_QINT16 => "qint16" | DT_QUINT16 => "quint16" | DT_UINT16 => "uint16"
  | DT_COMPLEX128 => "complex128" | DT_HALF => "half"
  | DT_RESOURCE => "resource" | DT_VARIANT => "variant"
  | DT_UINT32 => "uint32" | DT_UINT64 => "uint64"
  end.

(** Modelled from the spec: [TensorShape] is declared outside this file; a
    shape is the list of its dimension sizes, compared exactly (section 4.1
    (d)), and its number of elements is their product. *)
Definition TensorShape := list N.

Definition num_elements (s : TensorShape) : N := fold_right N.mul 1%N s.

Fixpoint TensorShape_eqb (a b : TensorShape) : bool :=
  match a, b with
  | [], [] => true
  | x :: a', y :: b' => N.eqb x y && TensorShape_eqb a' b'
  | _, _ => false
  end.

(** Modelled from the spec: [xla::Shape] is declared outside this file; a
    physical shape is an array or a tuple, a nested product of sub-shapes
    (section 3). *)
#[warnings="-register-all"]
Inductive XlaShape :=
| ArrayShape (element_type : DataType) (dimensions : list N)
| TupleShape (tuple_shapes : list XlaShape).

Definition IsTuple (s : XlaShape) : bool :=
  match s with TupleShape _ => true | ArrayShape _ _ => false end.

(** A path through a nested shape. *)
Definition ShapeIndex := list nat.

(** [se::DeviceMemoryBase]: a region of device memory, its address and its
    size in bytes. *)
Record DeviceMemoryBase := { opaque : N; size : N }.

(** Modelled from the spec: [xla::ShapedBuffer] is declared outside this
    file; it owns device memory regions keyed by shape-index path and
    declares an on-device shape that may be a tuple (section 3).  The copy
    reads its on-device shape, its leaves in iteration order ([leaves()])
    and the region at an index ([buffer(index)]). *)
Record ShapedBuffer := {
  on_device_shape : XlaShape;
  leaves : list (ShapeIndex * DeviceMemoryBase);
  buffer : ShapeIndex -> DeviceMemoryBase
}.

(** Modelled from the spec: [XlaTensor] is declared outside this file; it
    holds at most one shaped buffer and at most one definition event at a
    time (section 3). *)
Record XlaTensor := {
  shaped_buffer : option ShapedBuffer;
  (** the stream the current definition event was recorded on, if any *)
  definition_event : option Stream
}.

Definition has_shaped_buffer (t : XlaTensor) : bool :=
  match shaped_buffer t with Some _ => true | None => false end.

(** Modelled from the spec: [Tensor] is declared outside this file; a
    logical array with a data type and a shape, backed by at most one shaped
    buffer (section 3).  [FromTensor] is [XlaTensor::FromTensor], which
    yields a null pointer when the tensor carries no XLA tensor. *)
Record Tensor := {
  dtype : DataType;
  shape : TensorShape;
  FromTensor : option XlaTensor
}.

(** ** Calls on collaborators *)

(** One constructor per call the function makes on a collaborator or on the
    completion callback, with the arguments that matter and, for calls that
    answer, the answer. *)
Inductive Event :=
| EvInitialized (r : bool)
| EvDone (s : Status)
| EvIsSameSharedMemoryLocation (src dst : Stream) (r : bool)
| EvGetOrCreateSubStream (master : Stream) (r : option Stream)
| EvGetDeviceToDeviceStream (r : option Stream)
| EvReturnSubStream (master sub : Stream)
| EvShapeRepresentationFn (s : TensorShape) (d : DataType) (use_fast_memory : bool)
| EvAllocateShapedBuffer (d : DataType) (s : XlaShape) (device_ordinal : nat) (r : Status)
| EvWaitForDefinitionEventOnStream (s : Stream)
| EvCanShapedBufferBeAccessedNow (r : bool)
| EvThenWaitFor (s other : Stream)
| EvEnqueueOnTpuDeviceSendRecvLocal (s : Stream) (src dst : DeviceMemoryBase) (r : Status)
| EvWriteTupleIndexTablesAsync (s : Stream) (r : Status)
| EvEventInit (r : bool)
| EvThenRecordEvent (s : Stream)
| EvResetDefinitionEvent (s : Stream)
| EvTensorReference
| EvUnref
| EvThenDoHostCallback (s : Stream).

(** The closure handed to [ThenDoHostCallback] (lines 227-235): it captures
    the master stream (null when substreams are off), the chosen stream, the
    reference on the input and [done]. *)
Record HostCallback := {
  cb_device_to_device_master_stream : option Stream;
  cb_dst_device_to_device_stream : Stream
}.

(** The armed [gtl::MakeCleanup] object [return_substream] (lines 123-129)
    with the two pointers its lambda captured. *)
Record Cleanup := {
  cl_device_to_device_master_stream : option Stream;
  cl_dst_device_to_device_stream : Stream
}.

(** ** State *)

Record State := {
  (** the file-level flag, default [true] (line 44) *)
  tpu_use_substreams_for_cross_tpu_device_transfers_flag : bool;
  (** the function-local [static const bool] of lines 75-76; [None] until
      the first call initialises it *)
  should_use_substream : option bool;
  (** [*output] *)
  output : Tensor;
  (** references held on the buffer behind [*input]: those the transfer
      takes and releases through [TensorReference], and the one [*output]
      takes when the buffer is assigned to it (line 109) *)
  input_refcount : nat;
  (** the local [return_substream] while it is in scope and armed *)
  return_substream : option Cleanup;
  (** host callbacks enqueued and not yet run, with their stream *)
  host_callbacks : list (Stream * HostCallback);
  (** every collaborator call so far, oldest first *)
  trace : list Event
}.

Definition set_should_use_substream (b : option bool) (s : State) : State :=
  {| tpu_use_substreams_for_cross_tpu_device_transfers_flag :=
       tpu_use_substreams_for_cross_tpu_device_transfers_flag s;
     should_use_substream := b; output := output s;
     input_refcount := input_refcount s;
     return_substream := return_substream s;
     host_callbacks := host_callbacks s; trace := trace s |}.

Definition set_output (t : Tensor) (s : State) : State :=
  {| tpu_use_substreams_for_cross_tpu_device_transfers_flag :=
       tpu_use_substreams_for_cross_tpu_device_transfers_flag s;
     should_use_substream := should_use_substream s; output := t;
     input_refcount := input_refcount s;
     return_substream := return_substream s;
     host_callbacks := host_callbacks s; trace := trace s |}.

Definition set_input_refcount (n : nat) (s : State) : State :=
  {| tpu_use_substreams_for_cross_tpu_device_transfers_flag :=
       tpu_use_substreams_for_cross_tpu_device_transfers_flag s;
     should_use_substream := should_use_substream s; output := output s;
     input_refcount := n;
     return_substream := return_substream s;
     host_callbacks := host_callbacks s; trace := trace s |}.

Definition set_return_substream (c : option Cleanup) (s : State) : State :=
  {| tpu_use_substreams_for_cross_tpu_device_transfers_flag :=
       tpu_use_substreams_for_cross_tpu_device_transfers_flag s;
     should_use_substream := should_use_substream s; output := output s;
     input_refcount := input_refcount s;
     return_substream := c;
     host_callbacks := host_callbacks s; trace := trace s |}.

Definition set_host_callbacks (l : list (Stream * HostCallback)) (s : State) : State :=
  {| tpu_use_substreams_for_cross_tpu_device_transfers_flag :=
       tpu_use_substreams_for_cross_tpu_device_transfers_flag s;
     should_use_substream := should_use_substream s; output := output s;
     input_refcount := input_refcount s;
     return_substream := return_substream s;
     host_callbacks := l; trace := trace s |}.

Definition set_trace (t : list Event) (s : State) : State :=
  {| tpu_use_substreams_for_cross_tpu_device_transfers_flag :=
       tpu_use_substreams_for_cross_tpu_device_transfers_flag s;
     should_use_substream := should_use_substream s; output := output s;
     input_refcount := input_refcount s;
     return_substream := return_substream s;
     host_callbacks := host_callbacks s; trace := t |}.

(** Appending a block of events to the trace. *)
Definition emit (evs : list Event) (s : State) : State :=
  set_trace (trace s ++ evs) s.

(** ** The monad of [impl]: state, and early return with a [Status] *)

Inductive Res (A : Type) :=
| Val (a : A) (s : State)
| Return (st : Status) (s : State).
Arguments Return {A} st s.

Definition M (A : Type) := State -> Res A.

Definition ret {A} (a : A) : M A := fun s => Val a s.

Definition bind {A B} (m : M A) (k : A -> M B) : M B :=
  fun s => match m s with
           | Val a s' => k a s'
           | Return st s' => Return st s'
           end.

Definition return_ {A} (st : Status) : M A := fun s => Return st s.

Declare Scope impl_scope.
Delimit Scope impl_scope with impl.
Notation "x <- m ;; k" := (bind m (fun x => k))
  (at level 100, m at next level, right associativity) : impl_scope.
Notation "m ;; k" := (bind m (fun _ => k))
  (at level 100, right associativity) : impl_scope.
Open Scope impl_scope.

Definition call (e : Event) : M unit := fun s => Val tt (emit [e] s).

Definition modify (f : State -> State) : M unit := fun s => Val tt (f s).

Definition get {A} (f : State -> A) : M A := fun s => Val (f s) s.

Definition when (b : bool) (m : M unit) : M unit := if b then m else ret tt.

(** The path of this file, as [__FILE__] expands in the check macros. *)
Definition file : string := "tensorflow/core/tpu/tpu_node_device.cc".

Definition decimal (n : N) : string := NilZero.string_of_uint (N.to_uint n).

(** Modelled from the spec: the macro [TF_RET_CHECK] is declared outside this
    file.  A failed check makes the enclosing function return an internal
    error that names the place and the condition, followed by whatever the
    caller streamed into it (section 7: an internal invariant violation with
    a descriptive failure). *)
Definition RetCheckFailure (line : N) (condition extra : string) : Status :=
  Error error.INTERNAL
        ("RET_CHECK failure (" ++ file ++ ":" ++ decimal line ++ ") "
           ++ condition ++ " " ++ extra).

Definition TF_RET_CHECK (line : N) (b : bool) (condition extra : string) : M unit :=
  if b then ret tt else return_ (RetCheckFailure line condition extra).

(** [TF_RET_CHECK(p != nullptr)], keeping the pointer for later use. *)
Definition TF_RET_CHECK_nonnull {A} (line : N) (p : option A) (condition : string) : M A :=
  match p with
  | Some a => ret a
  | None => return_ (RetCheckFailure line condition "")
  end.

(** Modelled from the spec: the macro [TF_RETURN_IF_ERROR] is declared
    outside this file; a status that is not OK is returned as it is. *)
Definition TF_RETURN_IF_ERROR (st : Status) : M unit :=
  if ok st then ret tt else return_ st.

(** Modelled from the spec: the macro [TF_ASSIGN_OR_RETURN] is declared
    outside this file; it binds the value or returns the failure. *)
Definition TF_ASSIGN_OR_RETURN {A} (r : StatusOr A) : M A :=
  match r with
  | Value a => ret a
  | Failure c m => return_ (Error c m)
  end.

(** ** What the collaborators answer *)

(** One call's arguments and the answers of its collaborators.  Pointers the
    function dereferences without testing them ([dst_xla_context->stream()],
    [device_to_device_stream(0)], [host_to_device_stream()], the registered
    platform: the copy is registered only once a platform is, line 280) are
    plain values here; pointers it tests ([src_xla_context->stream()], the
    chosen device-to-device stream, the XLA tensors) are options. *)
Record Env := {
  src_name : string;
  dst_name : string;
  input : Tensor;
  (** [*output] holds the buffer of [*input] already when the call starts *)
  output_holds_input_buffer : bool;
  (** [GetRegisteredPlatform()->Initialized()] *)
  platform_Initialized : bool;
  (** [src_xla_context->stream()] *)
  src_stream : option Stream;
  (** [dst_xla_context->stream()] *)
  dst_stream : Stream;
  (** [dst_xla_context->stream()->parent()->device_ordinal()] *)
  dst_device_ordinal : nat;
  (** [DMAHelper::CanUseDMA(input)] *)
  CanUseDMA : bool;
  IsSameSharedMemoryLocation : Stream -> Stream -> bool;
  (** [dst_xla_context->device_to_device_stream(0)] *)
  device_to_device_stream_0 : Stream;
  (** what [GetOrCreateSubStream] hands out on that master stream *)
  GetOrCreateSubStream : Stream -> option Stream;
  (** [dst_xla_context->GetDeviceToDeviceStream()] *)
  GetDeviceToDeviceStream : option Stream;
  (** [dst_xla_context->host_to_device_stream()] *)
  host_to_device_stream : Stream;
  (** [dst_xla_context->shape_representation_fn()] *)
  shape_representation_fn : TensorShape -> DataType -> bool -> StatusOr XlaShape;
  (** [xla_output->AllocateShapedBuffer]: the buffer it installs, or its error *)
  AllocateShapedBuffer : DataType -> XlaShape -> nat -> StatusOr ShapedBuffer;
  (** [transfer_manager()->CanShapedBufferBeAccessedNow] *)
  CanShapedBufferBeAccessedNow : ShapedBuffer -> bool;
  EnqueueOnTpuDeviceSendRecvLocal :
    Stream -> DeviceMemoryBase -> DeviceMemoryBase -> Status;
  (** [transfer_manager()->WriteTupleIndexTablesAsync] *)
  WriteTupleIndexTablesAsync : Stream -> ShapedBuffer -> Status;
  (** [definition_event->Init()] *)
  definition_event_Init : bool
}.

(** ** The code *)

(** Lines 48-55. *)
Definition CheckIfTPUInitialized (env : Env) : M Status :=
  call (EvInitialized (platform_Initialized env)) ;;
  if negb (platform_Initialized env)
  then ret (Error error.FAILED_PRECONDITION
                  "The TPU system has not been initialized.")
  else ret OK.

(** The user's completion callback. *)
Definition done (st : Status) : M unit := call (EvDone st).

(** [ReturnSubStream] on the master stream. *)
Definition ReturnSubStream (master sub : Stream) : M unit :=
  call (EvReturnSubStream master sub).

(** The body of the cleanup lambda, lines 124-129. *)
Definition run_cleanup (c : Cleanup) : M unit :=
  match cl_device_to_device_master_stream c with
  | Some master => ReturnSubStream master (cl_dst_device_to_device_stream c)
  | None => ret tt
  end.

(** Modelled from the spec: [TensorReference] is declared outside this
    file.  Its constructor takes a reference on the buffer of the tensor and
    [Unref] gives it back (section 5: incremented at enqueue, decremented
    once at completion); the copy of the object captured by the host
    callback shares that one reference. *)
Definition TensorReference : M unit :=
  call EvTensorReference ;;
  modify (fun s => set_input_refcount (S (input_refcount s)) s).

Definition Unref : M unit :=
  call EvUnref ;;
  modify (fun s => set_input_refcount (Nat.pred (input_refcount s)) s).

(** The closure of lines 227-235, run by the stream once everything
    enqueued before it has completed. *)
Definition run_host_callback (cb : HostCallback) : M unit :=
  match cb_device_to_device_master_stream cb with
  | Some master => ReturnSubStream master (cb_dst_device_to_device_stream cb)
  | None => ret tt
  end ;;
  Unref ;;
  done OK.

Definition ThenDoHostCallback (stream : Stream) (cb : HostCallback) : M unit :=
  call (EvThenDoHostCallback stream) ;;
  modify (fun s => set_host_callbacks (host_callbacks s ++ [(stream, cb)]) s).

(** [AllocateShapedBuffer] on the XLA tensor of [*output]. *)
Definition install_shaped_buffer (sb : ShapedBuffer) (s : State) : State :=
  set_output
    {| dtype := dtype (output s); shape := shape (output s);
       FromTensor :=
         match FromTensor (output s) with
         | Some x => Some {| shaped_buffer := Some sb;
                             definition_event := definition_event x |}
         | None => None
         end |} s.

Definition ResetDefinitionEvent (stream : Stream) : M unit :=
  call (EvResetDefinitionEvent stream) ;;
  modify (fun s =>
    set_output
      {| dtype := dtype (output s); shape := shape (output s);
         FromTensor :=
           match FromTensor (output s) with
           | Some x => Some {| shaped_buffer := shaped_buffer x;
                               definition_event := Some stream |}
           | None => None
           end |} s).

(** The loop of lines 176-187 over the leaves of the input buffer. *)
Fixpoint copy_leaves (env : Env) (dst_device_to_device_stream : Stream)
         (xla_output_shaped_buffer : ShapedBuffer)
         (ls : list (ShapeIndex * DeviceMemoryBase)) : M unit :=
  match ls with
  | [] => ret tt
  | (index, input_buffer) :: rest =>
      let output_buffer := buffer xla_output_shaped_buffer index in
      TF_RET_CHECK 181 (N.eqb (size input_buffer) (size output_buffer))
        "input_buffer.size() == output_buffer.size()"
        ("input: " ++ decimal (size input_buffer)
           ++ " output: " ++ decimal (size output_buffer)) ;;
      let r := EnqueueOnTpuDeviceSendRecvLocal env dst_device_to_device_stream
                 input_buffer output_buffer in
      call (EvEnqueueOnTpuDeviceSendRecvLocal dst_device_to_device_stream
              input_buffer output_buffer r) ;;
      TF_RETURN_IF_ERROR r ;;
      copy_leaves env dst_device_to_device_stream xla_output_shaped_buffer rest
  end.

Definition xla_shaped_buffer (t : Tensor) : option ShapedBuffer :=
  match FromTensor t with
  | Some x => shaped_buffer x
  | None => None
  end.

(** [xla_output != nullptr && !xla_output->has_shaped_buffer()] *)
Definition xla_output_unallocated (t : Tensor) : bool :=
  match FromTensor t with
  | Some x => negb (has_shaped_buffer x)
  | None => false
  end.

(** Lines 114-121: the stream the copy is enqueued on. *)
Definition acquire_stream (env : Env) (device_to_device_master_stream : option Stream)
  : M (option Stream) :=
  match device_to_device_master_stream with
  | Some master =>
      let r := GetOrCreateSubStream env master in
      call (EvGetOrCreateSubStream master r) ;; ret r
  | None =>
      let r := GetDeviceToDeviceStream env in
      call (EvGetDeviceToDeviceStream r) ;; ret r
  end.

(** Lines 148-149: on success the XLA tensor of [*output] owns the buffer. *)
Definition AllocateShapedBuffer_output (env : Env) (d : DataType) (sh : XlaShape)
           (device_ordinal : nat) : M ShapedBuffer :=
  match AllocateShapedBuffer env d sh device_ordinal with
  | Value sb =>
      call (EvAllocateShapedBuffer d sh device_ordinal OK) ;;
      modify (install_shaped_buffer sb) ;;
      ret sb
  | Failure c m =>
      call (EvAllocateShapedBuffer d sh device_ordinal (Error c m)) ;;
      return_ (Error c m)
  end.

(** Modelled from the spec: the assignment of tensors, [*output = *input]
    (line 109), is declared outside this file; it is a value copy of the
    tensor's metadata, after which the two tensors share the backing buffer
    (section 4.2).  The output then is one more holder of that buffer: the
    assignment takes a reference on it, unless the output held the buffer
    already. *)
Definition assign_output (env : Env) : M unit :=
  modify (set_output (input env)) ;;
  when (negb (output_holds_input_buffer env))
    (modify (fun s => set_input_refcount (S (input_refcount s)) s)).

(** Lines 79-85: the platform is asked only when the two devices differ. *)
Definition check_initialized (env : Env) : M unit :=
  when (negb (String.eqb (src_name env) (dst_name env)))
    (s <- CheckIfTPUInitialized env ;;
     when (negb (ok s)) (done s ;; return_ OK)).

(** Lines 162-174: wait for the destination buffers when they cannot be
    written at once. *)
Definition wait_for_destination (env : Env) (dst_device_to_device_stream : Stream)
           (output_shaped_buffer : ShapedBuffer) : M unit :=
  let can := CanShapedBufferBeAccessedNow env output_shaped_buffer in
  call (EvCanShapedBufferBeAccessedNow can) ;;
  when (negb can)
    (call (EvThenWaitFor dst_device_to_device_stream (dst_stream env)) ;;
     when (IsTuple (on_device_shape output_shaped_buffer))
       (call (EvThenWaitFor (host_to_device_stream env) (dst_stream env)))).

(** Lines 189-205: the tuple index tables of a tuple-shaped destination. *)
Definition write_tuple_index_tables (env : Env) (dst_device_to_device_stream : Stream)
           (output_shaped_buffer : ShapedBuffer) : M unit :=
  when (IsTuple (on_device_shape output_shaped_buffer))
    (let r := WriteTupleIndexTablesAsync env (host_to_device_stream env)
                output_shaped_buffer in
     call (EvWriteTupleIndexTablesAsync (host_to_device_stream env) r) ;;
     TF_RETURN_IF_ERROR r ;;
     call (EvThenWaitFor dst_device_to_device_stream (host_to_device_stream env))).

(** The lambda [impl], lines 78-238.  A normal end of the monadic body is
    the final [return Status::OK()]. *)
Definition impl (env : Env) (should_use_substream : bool) : M unit :=
  check_initialized env ;;
  when (N.eqb (num_elements (shape (input env))) 0)
    (done OK ;; return_ OK) ;;
  src_compute_stream <-
    TF_RET_CHECK_nonnull 93 (src_stream env) "src_compute_stream != nullptr" ;;
  out <- get output ;;
  TF_RET_CHECK 94 (DataType_eqb (dtype (input env)) (dtype out))
    "input->dtype() == output->dtype()"
    ("input type: " ++ DataTypeString (dtype (input env))
       ++ " output type " ++ DataTypeString (dtype out)) ;;
  TF_RET_CHECK 97 (TensorShape_eqb (shape (input env)) (shape out))
    "input->shape() == output->shape()" "" ;;
  TF_RET_CHECK 98 (CanUseDMA env) "DMAHelper::CanUseDMA(input)" "" ;;
  let dst_compute_stream := dst_stream env in
  let same := IsSameSharedMemoryLocation env src_compute_stream dst_compute_stream in
  call (EvIsSameSharedMemoryLocation src_compute_stream dst_compute_stream same) ;;
  when same
    (assign_output env ;; done OK ;; return_ OK) ;;
  let device_to_device_master_stream :=
    if should_use_substream then Some (device_to_device_stream_0 env) else None in
  acquired <- acquire_stream env device_to_device_master_stream ;;
  dst_device_to_device_stream <-
    TF_RET_CHECK_nonnull 122 acquired "dst_device_to_device_stream != nullptr" ;;
  modify (set_return_substream
            (Some {| cl_device_to_device_master_stream := device_to_device_master_stream;
                     cl_dst_device_to_device_stream := dst_device_to_device_stream |})) ;;
  input_shaped_buffer <-
    TF_RET_CHECK_nonnull 139 (xla_shaped_buffer (input env))
      "xla_input != nullptr && xla_input->has_shaped_buffer()" ;;
  out <- get output ;;
  TF_RET_CHECK 141 (xla_output_unallocated out)
    "xla_output != nullptr && !xla_output->has_shaped_buffer()" "" ;;
  TF_RET_CHECK 142 (TensorShape_eqb (shape (input env)) (shape out))
    "input->shape() == output->shape()" "" ;;
  call (EvShapeRepresentationFn (shape (input env)) (dtype (input env)) false) ;;
  sh <- TF_ASSIGN_OR_RETURN
          (shape_representation_fn env (shape (input env)) (dtype (input env)) false) ;;
  output_shaped_buffer <-
    AllocateShapedBuffer_output env (dtype (input env)) sh (dst_device_ordinal env) ;;
  call (EvWaitForDefinitionEventOnStream dst_device_to_device_stream) ;;
  wait_for_destination env dst_device_to_device_stream output_shaped_buffer ;;
  copy_leaves env dst_device_to_device_stream output_shaped_buffer
    (leaves input_shaped_buffer) ;;
  write_tuple_index_tables env dst_device_to_device_stream output_shaped_buffer ;;
  call (EvEventInit (definition_event_Init env)) ;;
  TF_RET_CHECK 209 (definition_event_Init env) "definition_event->Init()"
    "Event failed to initialize!" ;;
  call (EvThenRecordEvent dst_device_to_device_stream) ;;
  ResetDefinitionEvent dst_device_to_device_stream ;;
  TensorReference ;;
  modify (set_return_substream None) ;;
  ThenDoHostCallback dst_device_to_device_stream
    {| cb_device_to_device_master_stream := device_to_device_master_stream;
       cb_dst_device_to_device_stream := dst_device_to_device_stream |}.

(** Running something that cannot return early. *)
Definition exec (m : M unit) (s : State) : State :=
  match m s with
  | Val _ s' => s'
  | Return _ s' => s'
  end.

(** [Status status = impl();] (line 239): the status the lambda returns,
    after the destructor of [return_substream] has run if the object was
    constructed and is still armed. *)
Definition call_impl (env : Env) (should_use_substream : bool) (s : State)
  : Status * State :=
  let '(status, s1) :=
    match impl env should_use_substream (set_return_substream None s) with
    | Val _ s' => (OK, s')
    | Return st s' => (st, s')
    end in
  match return_substream s1 with
  | Some c => (status, exec (run_cleanup c) (set_return_substream None s1))
  | None => (status, s1)
  end.

(** Lines 75-76: a function-local static is initialised by the first call
    that reaches it and keeps that value afterwards. *)
Definition static_should_use_substream (s : State) : bool :=
  match should_use_substream s with
  | Some b => b
  | None => tpu_use_substreams_for_cross_tpu_device_transfers_flag s
  end.

(** Lines 65-243.  The function is [void]: all it yields is the new state. *)
Definition TpuDeviceToDeviceCopy (env : Env) (s : State) : State :=
  let use := static_should_use_substream s in
  let '(status, s') := call_impl env use (set_should_use_substream (Some use) s) in
  if negb (ok status) then exec (done status) s' else s'.

(** The stream runtime running every pending host callback, oldest first. *)
Definition RunHostCallbacks (s : State) : State :=
  fold_left (fun acc cb => exec (run_host_callback (snd cb)) acc)
            (host_callbacks s) (set_host_callbacks [] s).

(** Lines 351-358, as far as the copy reads the flags. *)
Definition RegisterTpuNodeDevice
           (tpu_use_substreams_for_cross_tpu_device_transfers : bool) (s : State) : State :=
  {| tpu_use_substreams_for_cross_tpu_device_transfers_flag :=
       tpu_use_substreams_for_cross_tpu_device_transfers;
     should_use_substream := should_use_substream s; output := output s;
     input_refcount := input_refcount s;
     return_substream := return_substream s;
     host_callbacks := host_callbacks s; trace := trace s |}.

(** ** Reading traces *)

Definition count (p : Event -> bool) (tr : list Event) : nat :=
  List.length (filter p tr).

Definition is_done (e : Event) : bool :=
  match e with EvDone _ => true | _ => false end.

Definition is_done_ok (e : Event) : bool :=
  match e with EvDone OK => true | _ => false end.

Definition is_return_substream (e : Event) : bool :=
  match e with EvReturnSubStream _ _ => true | _ => false end.

Definition is_checkout (e : Event) : bool :=
  match e with
  | EvGetOrCreateSubStream _ _ | EvGetDeviceToDeviceStream _ => true
  | _ => false
  end.

Definition is_allocation (e : Event) : bool :=
  match e with EvAllocateShapedBuffer _ _ _ _ => true | _ => false end.

Definition is_leaf_copy (e : Event) : bool :=
  match e with EvEnqueueOnTpuDeviceSendRecvLocal _ _ _ _ => true | _ => false end.

Definition is_index_table_write (e : Event) : bool :=
  match e with EvWriteTupleIndexTablesAsync _ _ => true | _ => false end.

(** Commands put on a stream. *)
Definition is_stream_command (e : Event) : bool :=
  match e with
  | EvWaitForDefinitionEventOnStream _ | EvThenWaitFor _ _
  | EvEnqueueOnTpuDeviceSendRecvLocal _ _ _ _ | EvWriteTupleIndexTablesAsync _ _
  | EvThenRecordEvent _ | EvThenDoHostCallback _ => true
  | _ => false
  end.

Definition is_record_event (e : Event) : bool :=
  match e with EvThenRecordEvent _ | EvResetDefinitionEvent _ => true | _ => false end.

Definition is_reference (e : Event) : bool :=
  match e with EvTensorReference => true | _ => false end.

Definition is_unref (e : Event) : bool :=
  match e with EvUnref => true | _ => false end.

(** A pooled substream handed out. *)
Definition is_substream_checkout (e : Event) : bool :=
  match e with EvGetOrCreateSubStream _ (Some _) => true | _ => false end.

Definition checks_out (master sub : Stream) (e : Event) : bool :=
  match e with
  | EvGetOrCreateSubStream m (Some x) => Nat.eqb m master && Nat.eqb x sub
  | _ => false
  end.

Definition returns (master sub : Stream) (e : Event) : bool :=
  match e with
  | EvReturnSubStream m x => Nat.eqb m master && Nat.eqb x sub
  | _ => false
  end.

Definition is_allocated (e : Event) : bool :=
  match e with EvAllocateShapedBuffer _ _ _ OK => true | _ => false end.

(** The stream is made to wait for the source's definition event. *)
Definition waits_for_source (stream : Stream) (e : Event) : bool :=
  match e with
  | EvWaitForDefinitionEventOnStream x => Nat.eqb x stream
  | _ => false
  end.

Definition is_then_record_event (e : Event) : bool :=
  match e with EvThenRecordEvent _ => true | _ => false end.


Definition reports_same_location (e : Event) : bool :=
  match e with EvIsSameSharedMemoryLocation _ _ true => true | _ => false end.

Definition reports_not_accessible (e : Event) : bool :=
  match e with EvCanShapedBufferBeAccessedNow false => true | _ => false end.

(** A leaf copy enqueued on the stream. *)
Definition is_leaf_copy_on (stream : Stream) (e : Event) : bool :=
  match e with
  | EvEnqueueOnTpuDeviceSendRecvLocal x _ _ _ => Nat.eqb x stream
  | _ => false
  end.

(** The stream lines 114-121 choose for the transfer: what the master
    stream hands out when substreams are in use, what the destination's
    device context hands out otherwise. *)
Definition chosen_stream (env : Env) (s : State) : option Stream :=
  if static_should_use_substream s
  then GetOrCreateSubStream env (device_to_device_stream_0 env)
  else GetDeviceToDeviceStream env.

(** No event of the trace satisfies [p]. *)
Definition none (p : Event -> bool) (tr : list Event) : Prop :=
  count p tr = 0.

(** What one call adds to the trace before it returns, and what has been
    added once the stream has run the callbacks the call left pending. *)
Definition emitted (env : Env) (s : State) : list Event :=
  skipn (List.length (trace s)) (trace (TpuDeviceToDeviceCopy env s)).

Definition completed (env : Env) (s : State) : list Event :=
  skipn (List.length (trace s))
        (trace (RunHostCallbacks (TpuDeviceToDeviceCopy env s))).

Open Scope list_scope.

(** ** The leaf loop, leaf by leaf *)

(** What one leaf adds to the trace when its copy is attempted. *)
Definition leaf_copy (env : Env) (stream : Stream) (dst : ShapedBuffer)
           (leaf : ShapeIndex * DeviceMemoryBase) : Event :=
  EvEnqueueOnTpuDeviceSendRecvLocal stream (snd leaf) (buffer dst (fst leaf))
    (EnqueueOnTpuDeviceSendRecvLocal env stream (snd leaf) (buffer dst (fst leaf))).

(** The test of line 181 for one leaf. *)
Definition same_size (dst : ShapedBuffer) (leaf : ShapeIndex * DeviceMemoryBase) : bool :=
  N.eqb (size (snd leaf)) (size (buffer dst (fst leaf))).

(** The leaf passes the test and its copy is enqueued. *)
Definition copies (env : Env) (stream : Stream) (dst : ShapedBuffer)
           (leaf : ShapeIndex * DeviceMemoryBase) : bool :=
  same_size dst leaf
  && ok (EnqueueOnTpuDeviceSendRecvLocal env stream (snd leaf) (buffer dst (fst leaf))).

(** The status of a failed test of line 181. *)
Definition size_failure (dst : ShapedBuffer) (leaf : ShapeIndex * DeviceMemoryBase) : Status :=
  RetCheckFailure 181 "input_buffer.size() == output_buffer.size()"
    ("input: " ++ decimal (size (snd leaf))
       ++ " output: " ++ decimal (size (buffer dst (fst leaf))))%string.

(** ** The blocks of events the stages of the copy add to the trace *)

Definition precondition_failure : Status :=
  Error error.FAILED_PRECONDITION "The TPU system has not been initialized.".

(** The check of lines 79-85 ends the call. *)
Definition initialization_fails (env : Env) : bool :=
  negb (String.eqb (src_name env) (dst_name env)) && negb (platform_Initialized env).

Definition init_events (env : Env) : list Event :=
  if String.eqb (src_name env) (dst_name env) then []
  else [EvInitialized (platform_Initialized env)].

Definition wait_events (env : Env) (stream : Stream) (dst : ShapedBuffer) : list Event :=
  EvCanShapedBufferBeAccessedNow (CanShapedBufferBeAccessedNow env dst)
  :: (if CanShapedBufferBeAccessedNow env dst then []
      else EvThenWaitFor stream (dst_stream env)
           :: (if IsTuple (on_device_shape dst)
               then [EvThenWaitFor (host_to_device_stream env) (dst_stream env)]
               else [])).

(** The index-table write of a tuple-shaped destination fails. *)
Definition index_tables_fail (env : Env) (dst : ShapedBuffer) : bool :=
  IsTuple (on_device_shape dst)
  && negb (ok (WriteTupleIndexTablesAsync env (host_to_device_stream env) dst)).

Definition index_table_events (env : Env) (stream : Stream) (dst : ShapedBuffer)
  : list Event :=
  if IsTuple (on_device_shape dst)
  then EvWriteTupleIndexTablesAsync (host_to_device_stream env)
         (WriteTupleIndexTablesAsync env (host_to_device_stream env) dst)
       :: (if ok (WriteTupleIndexTablesAsync env (host_to_device_stream env) dst)
           then [EvThenWaitFor stream (host_to_device_stream env)]
           else [])
  else [].

(** What the loop has put on the trace when it stops at [leaf]: the copies
    of the leaves before it and, when the sizes agreed, the call that
    failed. *)
Definition attempted (env : Env) (stream : Stream) (dst : ShapedBuffer)
           (leaf : ShapeIndex * DeviceMemoryBase) : list Event :=
  if same_size dst leaf then [leaf_copy env stream dst leaf] else [].

(** The status the loop returns when it stops at [leaf]. *)
Definition leaf_failure (env : Env) (stream : Stream) (dst : ShapedBuffer)
           (leaf : ShapeIndex * DeviceMemoryBase) : Status :=
  if same_size dst leaf
  then EnqueueOnTpuDeviceSendRecvLocal env stream (snd leaf) (buffer dst (fst leaf))
  else size_failure dst leaf.

(** ** Concrete calls *)

Module Examples.

Definition mem (address bytes : N) : DeviceMemoryBase :=
  {| opaque := address; size := bytes |}.

(** A defined tensor of shape [dims] whose buffer has the given leaves. *)
Definition defined (d : DataType) (dims : TensorShape)
           (ls : list (ShapeIndex * DeviceMemoryBase)) : Tensor :=
  {| dtype := d; shape := dims;
     FromTensor :=
       Some {| shaped_buffer :=
                 Some {| on_device_shape := ArrayShape d dims;
                         leaves := ls;
                         buffer := fun _ => mem 4096 4096 |};
               definition_event := Some 1 |} |}.

(** A declared tensor with an XLA tensor and no buffer yet. *)
Definition declared (d : DataType) (dims : TensorShape) : Tensor :=
  {| dtype := d; shape := dims;
     FromTensor := Some {| shaped_buffer := None; definition_event := None |} |}.

(** A tensor without an XLA tensor behind it. *)
Definition bare (d : DataType) (dims : TensorShape) : Tensor :=
  {| dtype := d; shape := dims; FromTensor := None |}.

(** The destination buffer the allocator hands out: a region of [first]
    bytes at index [[0]] and of [other] bytes at every other index. *)
Definition allocated (sh : XlaShape) (first other : N) : ShapedBuffer :=
  {| on_device_shape := sh;
     leaves := match sh with
               | TupleShape _ => [([0], mem 8192 first); ([1], mem 12288 other)]
               | ArrayShape _ _ => [([], mem 12288 other)]
               end;
     buffer := fun index =>
                 match index with
                 | [0] => mem 8192 first
                 | _ => mem 12288 other
                 end |}.

(** Device 0 to device 1; [tuple] makes the destination's physical shape
    a tuple, [first] and [other] are the sizes of the destination leaves. *)
Definition env (initialized same accessible tuple : bool) (inp : Tensor)
           (first other : N) : Env :=
  {| src_name := "/job:worker/replica:0/task:0/device:TPU:0";
     dst_name := "/job:worker/replica:0/task:0/device:TPU:1";
     input := inp;
     output_holds_input_buffer := false;
     platform_Initialized := initialized;
     src_stream := Some 1;
     dst_stream := 2;
     dst_device_ordinal := 1;
     CanUseDMA := true;
     IsSameSharedMemoryLocation := fun _ _ => same;
     device_to_device_stream_0 := 3;
     GetOrCreateSubStream := fun _ => Some 4;
     GetDeviceToDeviceStream := Some 3;
     host_to_device_stream := 5;
     shape_representation_fn :=
       fun dims d _ =>
         Value (if tuple then TupleShape [ArrayShape d dims; ArrayShape d dims]
                else ArrayShape d dims);
     AllocateShapedBuffer := fun _ sh _ => Value (allocated sh first other);
     CanShapedBufferBeAccessedNow := fun _ => accessible;
     EnqueueOnTpuDeviceSendRecvLocal := fun _ _ _ => OK;
     WriteTupleIndexTablesAsync := fun _ _ => OK;
     definition_event_Init := true |}.

(** Before the first call: the flag as registered, nothing pending. *)
Definition start (flag : bool) (out : Tensor) : State :=
  {| tpu_use_substreams_for_cross_tpu_device_transfers_flag := flag;
     should_use_substream := None;
     output := out;
     input_refcount := 1;
     return_substream := None;
     host_callbacks := [];
     trace := [] |}.

Definition float1024 : Tensor := defined DT_FLOAT [1024%N] [([], mem 4096 4096)].

Definition pair1024 : Tensor :=
  defined DT_FLOAT [1024%N] [([0], mem 4096 4096); ([1], mem 16384 4096)].

End Examples.

(** ** More ways to read a trace *)

Definition is_initialized_query (e : Event) : bool :=
  match e with EvInitialized _ => true | _ => false end.

Definition is_get_or_create_substream (e : Event) : bool :=
  match e with EvGetOrCreateSubStream _ _ => true | _ => false end.

Definition is_get_device_to_device_stream (e : Event) : bool :=
  match e with EvGetDeviceToDeviceStream _ => true | _ => false end.

(** A leaf copy that the stream accepted. *)
Definition is_enqueued (e : Event) : bool :=
  match e with EvEnqueueOnTpuDeviceSendRecvLocal _ _ _ OK => true | _ => false end.

Definition is_event_init (e : Event) : bool :=
  match e with EvEventInit _ => true | _ => false end.

Definition is_then_wait_for (e : Event) : bool :=
  match e with EvThenWaitFor _ _ => true | _ => false end.

Definition is_host_callback (e : Event) : bool :=
  match e with EvThenDoHostCallback _ => true | _ => false end.

(** The definition event of the XLA tensor behind a tensor, if there is
    one. *)
Definition xla_definition_event (t : Tensor) : option Stream :=
  match FromTensor t with
  | Some x => definition_event x
  | None => None
  end.

(** A result with the substream flag registered again in its state, and the
    computations that neither read nor write that flag. *)
Definition lift_register {A : Type} (b : bool) (r : Res A) : Res A :=
  match r with
  | Val a s => Val a (RegisterTpuNodeDevice b s)
  | Return st s => Return st (RegisterTpuNodeDevice b s)
  end.

Definition commutes {A : Type} (b : bool) (m : M A) : Prop :=
  forall s, m (RegisterTpuNodeDevice b s) = lift_register b (m s).

Definition is_shape_representation_call (e : Event) : bool :=
  match e with EvShapeRepresentationFn _ _ _ => true | _ => false end.

(** ** Calls with failing collaborators *)

Module Failures.

(** The call [base] with other answers of the allocator, of the stream that
    enqueues the copies, of the transfer manager that writes the index
    tables, and of the initialisation of the definition event. *)
Definition env (base : Env)
           (allocate : DataType -> XlaShape -> nat -> StatusOr ShapedBuffer)
           (enqueue : Stream -> DeviceMemoryBase -> DeviceMemoryBase -> Status)
           (write : Stream -> ShapedBuffer -> Status)
           (init : bool) : Env :=
  {| src_name := src_name base; dst_name := dst_name base;
     input := input base;
     output_holds_input_buffer := output_holds_input_buffer base;
     platform_Initialized := platform_Initialized base;
     src_stream := src_stream base; dst_stream := dst_stream base;
     dst_device_ordinal := dst_device_ordinal base;
     CanUseDMA := CanUseDMA base;
     IsSameSharedMemoryLocation := IsSameSharedMemoryLocation base;
     device_to_device_stream_0 := device_to_device_stream_0 base;
     GetOrCreateSubStream := GetOrCreateSubStream base;
     GetDeviceToDeviceStream := GetDeviceToDeviceStream base;
     host_to_device_stream := host_to_device_stream base;
     shape_representation_fn := shape_representation_fn base;
     AllocateShapedBuffer := allocate;
     CanShapedBufferBeAccessedNow := CanShapedBufferBeAccessedNow base;
     EnqueueOnTpuDeviceSendRecvLocal := enqueue;
     WriteTupleIndexTablesAsync := write;
     definition_event_Init := init |}.

(** A tuple-shaped transfer of two leaves between two devices. *)
Definition pair : Env :=
  Examples.env true false true true Examples.pair1024 4096 4096.

Definition out_of_memory : DataType -> XlaShape -> nat -> StatusOr ShapedBuffer :=
  fun _ _ _ => Failure error.RESOURCE_EXHAUSTED "out of device memory".

(** The stream refuses the copy of the source region at address 16384. *)
Definition refuse_second : Stream -> DeviceMemoryBase -> DeviceMemoryBase -> Status :=
  fun _ a _ =>
    if N.eqb (opaque a) 16384 then Error error.UNAVAILABLE "stream is closed"
    else OK.

Definition write_fails : Stream -> ShapedBuffer -> Status :=
  fun _ _ => Error error.INTERNAL "cannot write index tables".

Definition start : State :=
  Examples.start true (Examples.declared DT_FLOAT [1024%N]).

Definition src : ShapedBuffer :=
  {| on_device_shape := ArrayShape DT_FLOAT [1024%N];
     leaves := [([0], Examples.mem 4096 4096); ([1], Examples.mem 16384 4096)];
     buffer := fun _ => Examples.mem 4096 4096 |}.

Definition sh : XlaShape :=
  TupleShape [ArrayShape DT_FLOAT [1024%N]; ArrayShape DT_FLOAT [1024%N]].

Definition dst : ShapedBuffer := Examples.allocated sh 4096 4096.

End Failures.

(** * The device factory

    [TpuNodeDeviceFactory] and the registration functions of the file.  The
    factory talks to the registered platform, to the XLA op registry, to the
    TPU node context and to the devices it builds; the calls it makes are
    appended to [calls], the answers are read from a record of oracles. *)

Module Factory.

(** ** Data *)

(** [tpu::TpuPlatformInterface], as far as the factory asks it. *)
Record TpuPlatformInterface := {
  VisibleDeviceCount : Z;
  ShouldRegisterTpuDeviceToDeviceCopy : bool
}.

Module XlaOpRegistry.

Inductive AutoclusteringPolicy := kAlways | kIfExplicitlyRequested.

Record DeviceRegistration := {
  compilation_device_name : string;
  autoclustering_policy : AutoclusteringPolicy;
  cluster_resource_variable_ops_unsafely : bool;
  cluster_stack_ops : bool;
  cluster_tensor_array_ops : bool;
  cluster_stateful_rng_ops : bool;
  cluster_control_trigger : bool;
  elide_assert_and_checknumerics : bool;
  cluster_variant_ops : bool;
  cluster_slow_ops : bool;
  cluster_inaccurate_ops : bool
}.

End XlaOpRegistry.

(** [const SessionOptions&]: handed to the devices unread, identified by its
    address. *)
Definition SessionOptions := nat.

Module XlaDevice.

(** [XlaDevice::Options], the fields the factory sets. *)
Record Options := {
  platform : TpuPlatformInterface;
  device_name_prefix : string;
  device_name : string;
  device_ordinal : Z;
  compilation_device_name : string;
  use_multiple_streams : bool
}.

End XlaDevice.

(** The one error callback the factory installs,
    [&tpu::TpuNodeContext::CloseTpuHost]. *)
Inductive DeviceErrorCallback := CloseTpuHost.

(** An [XlaDevice] as the factory sees it: what it was constructed from,
    and the two settings the factory may change; [None] is the value the
    constructor left. *)
Record Device := {
  session_options : SessionOptions;
  options : XlaDevice.Options;
  allows_sync_on_completion : option bool;
  handle_device_error_callback : option DeviceErrorCallback
}.

Definition make_unique (session_options : SessionOptions)
           (options : XlaDevice.Options) : Device :=
  {| session_options := session_options; options := options;
     allows_sync_on_completion := None;
     handle_device_error_callback := None |}.

Definition SetAllowsSyncOnCompletion (b : bool) (d : Device) : Device :=
  {| session_options := session_options d; options := options d;
     allows_sync_on_completion := Some b;
     handle_device_error_callback := handle_device_error_callback d |}.

Definition SetHandleDeviceErrorCallback (c : DeviceErrorCallback) (d : Device) : Device :=
  {| session_options := session_options d; options := options d;
     allows_sync_on_completion := allows_sync_on_completion d;
     handle_device_error_callback := Some c |}.

(** The arguments of [strings::StrCat]: pieces of text and integers, the
    latter written in decimal. *)
Inductive AlphaNum :=
| Str (s : string)
| Int (i : Z).

Definition Piece (a : AlphaNum) : string :=
  match a with
  | Str s => s
  | Int i => NilZero.string_of_int (Z.to_int i)
  end.

Definition StrCat (args : list AlphaNum) : string :=
  fold_right (fun a rest => Piece a ++ rest)%string "" args.

(** ** Collaborators and process state *)

(** The calls the factory makes on its collaborators. *)
Inductive Call :=
| CopyTensor_Registration (sender receiver : string)
| RegisterCompilationDevice (device_name : string)
                            (registration : XlaOpRegistry.DeviceRegistration)
| RegisterXlaDeviceKernels (device jit_device : string)
| Initialize (device_ordinal : Z) (result : Status)
| UseGpuDeviceInfo (device : Device) (result : Status).

(** The file's flags (lines 43-45), the copy's part of the process, the two
    function-local statics (set once they are initialised) and the calls
    made so far. *)
Record Process := {
  tpu_autoclustering_flag : bool;
  tpu_xla_device_failure_closes_chips_flag : bool;
  copy : State;
  register_tpu_tpu_copy : bool;
  registrations : bool;
  calls : list Call
}.

Definition call_made (c : Call) (p : Process) : Process :=
  {| tpu_autoclustering_flag := tpu_autoclustering_flag p;
     tpu_xla_device_failure_closes_chips_flag :=
       tpu_xla_device_failure_closes_chips_flag p;
     copy := copy p;
     register_tpu_tpu_copy := register_tpu_tpu_copy p;
     registrations := registrations p;
     calls := calls p ++ [c] |}.

Definition set_register_tpu_tpu_copy (p : Process) : Process :=
  {| tpu_autoclustering_flag := tpu_autoclustering_flag p;
     tpu_xla_device_failure_closes_chips_flag :=
       tpu_xla_device_failure_closes_chips_flag p;
     copy := copy p;
     register_tpu_tpu_copy := true;
     registrations := registrations p;
     calls := calls p |}.

Definition set_registrations (p : Process) : Process :=
  {| tpu_autoclustering_flag := tpu_autoclustering_flag p;
     tpu_xla_device_failure_closes_chips_flag :=
       tpu_xla_device_failure_closes_chips_flag p;
     copy := copy p;
     register_tpu_tpu_copy := register_tpu_tpu_copy p;
     registrations := true;
     calls := calls p |}.

(** The process before the factory or the registration function has run:
    the flags as lines 43-45 initialise them, around the state [copy] of
    the copy. *)
Definition initial (copy : State) : Process :=
  {| tpu_autoclustering_flag := false;
     tpu_xla_device_failure_closes_chips_flag := true;
     copy := copy;
     register_tpu_tpu_copy := false;
     registrations := false;
     calls := [] |}.

(** What the collaborators answer: the registered platform (a null pointer
    is [None]), the device names [DEVICE_TPU_NODE] and [DEVICE_TPU_XLA_JIT]
    of tpu_defs.h, [tpu::TpuNodeContext::Initialize], [UseGpuDeviceInfo] of
    a device, and [errors::AppendToMessage] with the pieces it is given. *)
Record Env := {
  GetRegisteredPlatform : option TpuPlatformInterface;
  DEVICE_TPU_NODE : string;
  DEVICE_TPU_XLA_JIT : string;
  TpuNodeContext_Initialize : Z -> Status;
  Device_UseGpuDeviceInfo : Device -> Status;
  AppendToMessage : Status -> list AlphaNum -> Status
}.

(** ** The factory *)

(** The body of the loop of lines 263-266, [n] iterations from [i] on. *)
Fixpoint push_device_names (n : nat) (i : Z) (devices : list string) : list string :=
  match n with
  | O => devices
  | S n =>
      let device_name := StrCat [Str "/physical_device:TPU:"; Int i] in
      push_device_names n (i + 1) (devices ++ [device_name])
  end.

(** Lines 252-268. *)
Definition ListPhysicalDevices (env : Env) (devices : list string)
  : Status * list string :=
  match GetRegisteredPlatform env with
  | None => (OK, devices)
  | Some platform =>
      let device_count := VisibleDeviceCount platform in
      (OK, push_device_names (Z.to_nat device_count) 0 devices)
  end.

(** Lines 345-349: the registration object is a function-local static. *)
Definition RegisterTpuDeviceToDeviceCopy (env : Env) (p : Process) : Process :=
  if register_tpu_tpu_copy p then p
  else set_register_tpu_tpu_copy
         (call_made (CopyTensor_Registration (DEVICE_TPU_NODE env) (DEVICE_TPU_NODE env)) p).

(** Lines 282-297. *)
Definition registration (env : Env) (p : Process) : XlaOpRegistry.DeviceRegistration :=
  {| XlaOpRegistry.compilation_device_name := DEVICE_TPU_XLA_JIT env;
     XlaOpRegistry.autoclustering_policy :=
       if tpu_autoclustering_flag p then XlaOpRegistry.kAlways
       else XlaOpRegistry.kIfExplicitlyRequested;
     XlaOpRegistry.cluster_resource_variable_ops_unsafely := true;
     XlaOpRegistry.cluster_stack_ops := false;
     XlaOpRegistry.cluster_tensor_array_ops := true;
     XlaOpRegistry.cluster_stateful_rng_ops := true;
     XlaOpRegistry.cluster_control_trigger := true;
     XlaOpRegistry.elide_assert_and_checknumerics := true;
     XlaOpRegistry.cluster_variant_ops := true;
     XlaOpRegistry.cluster_slow_ops := true;
     XlaOpRegistry.cluster_inaccurate_ops := true |}.

(** Lines 307-313. *)
Definition device_options (env : Env) (platform : TpuPlatformInterface)
           (name_prefix : string) (i : Z) : XlaDevice.Options :=
  {| XlaDevice.platform := platform;
     XlaDevice.device_name_prefix := name_prefix;
     XlaDevice.device_name := DEVICE_TPU_NODE env;
     XlaDevice.device_ordinal := i;
     XlaDevice.compilation_device_name := DEVICE_TPU_XLA_JIT env;
     XlaDevice.use_multiple_streams := true |}.

(** Lines 328-331. *)
Definition configure (p : Process) (device : Device) : Device :=
  let device := SetAllowsSyncOnCompletion false device in
  if tpu_xla_device_failure_closes_chips_flag p
  then SetHandleDeviceErrorCallback CloseTpuHost device
  else device.

(** The loop of lines 304-338, [n] iterations from [i] on. *)
Fixpoint create_devices (env : Env) (session_options : SessionOptions)
         (name_prefix : string) (platform : TpuPlatformInterface)
         (n : nat) (i : Z) (p : Process) (devices : list Device)
  : Status * Process * list Device :=
  match n with
  | O => (OK, p, devices)
  | S n =>
      let initialized := TpuNodeContext_Initialize env i in
      let p := call_made (Initialize i initialized) p in
      if negb (ok initialized) then (initialized, p, devices)
      else
        let options := device_options env platform name_prefix i in
        let device := make_unique session_options options in
        let status := Device_UseGpuDeviceInfo env device in
        let p := call_made (UseGpuDeviceInfo device status) p in
        if negb (ok status)
        then (AppendToMessage env status
                [Str "while setting up "; Str (DEVICE_TPU_XLA_JIT env);
                 Str " device number "; Int i],
              p, devices)
        else
          let device := configure p device in
          create_devices env session_options name_prefix platform n (i + 1) p
                         (devices ++ [device])
  end.

(** Lines 270-341. *)
Definition CreateDevices (env : Env) (session_options : SessionOptions)
           (name_prefix : string) (p : Process) (devices : list Device)
  : Status * Process * list Device :=
  match GetRegisteredPlatform env with
  | None => (OK, p, devices)
  | Some platform =>
      let p := if ShouldRegisterTpuDeviceToDeviceCopy platform
               then RegisterTpuDeviceToDeviceCopy env p else p in
      let p := call_made (RegisterCompilationDevice (DEVICE_TPU_NODE env)
                         (registration env p)) p in
      let p := if registrations p then p
               else set_registrations
                      (call_made (RegisterXlaDeviceKernels (DEVICE_TPU_NODE env)
                                 (DEVICE_TPU_XLA_JIT env)) p) in
      let device_count := VisibleDeviceCount platform in
      create_devices env session_options name_prefix platform
                     (Z.to_nat device_count) 0 p devices
  end.

(** Lines 351-358: the three flags; the registration macros that follow
    are not modelled. *)
Definition RegisterTpuNodeDevice
           (tpu_autoclustering tpu_xla_device_failure_closes_chips
              tpu_use_substreams_for_cross_tpu_device_transfers : bool)
           (p : Process) : Process :=
  {| tpu_autoclustering_flag := tpu_autoclustering;
     tpu_xla_device_failure_closes_chips_flag :=
       tpu_xla_device_failure_closes_chips;
     copy := RegisterTpuNodeDevice
               tpu_use_substreams_for_cross_tpu_device_transfers (copy p);
     register_tpu_tpu_copy := register_tpu_tpu_copy p;
     registrations := registrations p;
     calls := calls p |}.

(** ** Reading the calls *)

Definition count (f : Call -> bool) (l : list Call) : nat :=
  List.length (filter f l).

Definition is_copy_registration (c : Call) : bool :=
  match c with CopyTensor_Registration _ _ => true | _ => false end.

Definition is_compilation_device (c : Call) : bool :=
  match c with RegisterCompilationDevice _ _ => true | _ => false end.

Definition is_device_kernels (c : Call) : bool :=
  match c with RegisterXlaDeviceKernels _ _ => true | _ => false end.

Definition is_initialize (c : Call) : bool :=
  match c with Initialize _ _ => true | _ => false end.

(** A call of the loop that creates the devices. *)
Definition is_setup (c : Call) : bool :=
  match c with
  | Initialize _ _ | UseGpuDeviceInfo _ _ => true
  | _ => false
  end.

(** The context of ordinal [i] initialises and the device built for it
    accepts the device info. *)
Definition sets_up (env : Env) (session_options : SessionOptions)
           (name_prefix : string) (platform : TpuPlatformInterface) (i : Z) : bool :=
  ok (TpuNodeContext_Initialize env i)
  && ok (Device_UseGpuDeviceInfo env
           (make_unique session_options
              (device_options env platform name_prefix i))).

(** The calls of one iteration of the loop, up to the first that fails. *)
Definition setup_calls (env : Env) (session_options : SessionOptions)
           (name_prefix : string) (platform : TpuPlatformInterface) (i : Z)
  : list Call :=
  let device :=
    make_unique session_options (device_options env platform name_prefix i) in
  Initialize i (TpuNodeContext_Initialize env i)
  :: (if ok (TpuNodeContext_Initialize env i)
      then [UseGpuDeviceInfo device (Device_UseGpuDeviceInfo env device)]
      else []).

(** The status the loop returns when it stops at ordinal [i]. *)
Definition setup_failure (env : Env) (session_options : SessionOptions)
           (name_prefix : string) (platform : TpuPlatformInterface) (i : Z)
  : Status :=
  if ok (TpuNodeContext_Initialize env i)
  then AppendToMessage env
         (Device_UseGpuDeviceInfo env
            (make_unique session_options
               (device_options env platform name_prefix i)))
         [Str "while setting up "; Str (DEVICE_TPU_XLA_JIT env);
          Str " device number "; Int i]
  else TpuNodeContext_Initialize env i.

(** Two processes that differ in the calls made at most. *)
Definition same_settings (p p' : Process) : Prop :=
  tpu_autoclustering_flag p' = tpu_autoclustering_flag p /\
  tpu_xla_device_failure_closes_chips_flag p'
  = tpu_xla_device_failure_closes_chips_flag p /\
  copy p' = copy p /\
  register_tpu_tpu_copy p' = register_tpu_tpu_copy p /\
  registrations p' = registrations p.

(** The calls a process has made since it was [p]. *)
Definition since (p p' : Process) : list Call :=
  skipn (List.length (calls p)) (calls p').

(** The ordinals [first], [first + 1], ... of [n] loop iterations. *)
Fixpoint ordinals (n : nat) (first : Z) : list Z :=
  match n with
  | O => []
  | S n => first :: ordinals n (first + 1)
  end.

(** What the factory and the registration function are asked to do, one
    after the other, in one process. *)
Inductive Request :=
| Registering (tpu_autoclustering tpu_xla_device_failure_closes_chips
              tpu_use_substreams_for_cross_tpu_device_transfers : bool)
| Creating (env : Env) (session_options : SessionOptions) (name_prefix : string).

Definition serve (p : Process) (r : Request) : Process :=
  match r with
  | Registering a c u => RegisterTpuNodeDevice a c u p
  | Creating env session_options name_prefix =>
      snd (fst (CreateDevices env session_options name_prefix p []))
  end.

Definition has_platform (r : Request) : bool :=
  match r with
  | Creating env _ _ =>
      match GetRegisteredPlatform env with Some _ => true | None => false end
  | Registering _ _ _ => false
  end.

Definition wants_copy_registration (r : Request) : bool :=
  match r with
  | Creating env _ _ =>
      match GetRegisteredPlatform env with
      | Some platform => ShouldRegisterTpuDeviceToDeviceCopy platform
      | None => false
      end
  | Registering _ _ _ => false
  end.

(** ** Concrete factories *)

Module Hosts.

Definition platform : TpuPlatformInterface :=
  {| VisibleDeviceCount := 4; ShouldRegisterTpuDeviceToDeviceCopy := true |}.

(** A line feed and a tab. *)
Definition newline_tab : string :=
  String (Ascii.ascii_of_nat 10) (String (Ascii.ascii_of_nat 9) EmptyString).

(** A host with four visible devices, with the given answers of the node
    context and of the devices; [AppendToMessage] keeps the code and puts
    the pieces on a new line of the message. *)
Definition env (initialize : Z -> Status) (use : Device -> Status) : Env :=
  {| GetRegisteredPlatform := Some platform;
     DEVICE_TPU_NODE := "TPU";
     DEVICE_TPU_XLA_JIT := "XLA_TPU_JIT";
     TpuNodeContext_Initialize := initialize;
     Device_UseGpuDeviceInfo := use;
     AppendToMessage :=
       fun status pieces =>
         match status with
         | OK => OK
         | Error code message =>
             Error code (message ++ newline_tab ++ StrCat pieces)%string
         end |}.

Definition healthy : Env := env (fun _ => OK) (fun _ => OK).

(** The context of ordinal 2 does not initialise. *)
Definition broken : Env :=
  env (fun i => if Z.eqb i 2 then Error error.UNAVAILABLE "chip is down" else OK)
      (fun _ => OK).

Definition start : Process :=
  initial (Examples.start true (Examples.declared DT_FLOAT [1024%N])).

End Hosts.

End Factory.

(** ** Traces, blocks of events *)

Lemma emit_nil (s : State) : emit [] s = s.
Proof. destruct s; unfold emit, set_trace; simpl. now rewrite app_nil_r. Qed.

Lemma emit_emit (a b : list Event) (s : State) :
  emit b (emit a s) = emit (a ++ b) s.
Proof. unfold emit, set_trace; simpl. now rewrite app_assoc. Qed.

Lemma count_app (p : Event -> bool) (a b : list Event) :
  count p (a ++ b) = count p a + count p b.
Proof. unfold count. now rewrite filter_app, length_app. Qed.

Lemma count_cons (p : Event -> bool) (e : Event) (a : list Event) :
  count p (e :: a) = (if p e then 1 else 0) + count p a.
Proof. unfold count. simpl. now destruct (p e). Qed.

Lemma skipn_prefix (a b : list Event) : skipn (List.length a) (a ++ b) = b.
Proof. induction a; simpl; auto. Qed.

(** ** The leaf loop *)

Section LeafLoop.

Variable env : Env.
Variable stream : Stream.
Variable dst : ShapedBuffer.

#[local] Abbreviation leaf_copy := (leaf_copy env stream dst).
#[local] Abbreviation same_size := (same_size dst).
#[local] Abbreviation copies := (copies env stream dst).
#[local] Abbreviation size_failure := (size_failure dst).

Lemma copy_leaves_all (ls : list (ShapeIndex * DeviceMemoryBase)) (s : State) :
  forallb copies ls = true ->
  copy_leaves env stream dst ls s = Val tt (emit (map leaf_copy ls) s).
Proof.
  revert s. induction ls as [|[index b] ls IH]; intros s H; simpl.
  - now rewrite emit_nil.
  - simpl in H. apply andb_true_iff in H as [Hc Hls].
    unfold copies, same_size in Hc. simpl in Hc.
    apply andb_true_iff in Hc as [Hsz Hok].
    unfold bind, TF_RET_CHECK, TF_RETURN_IF_ERROR, call, ret.
    rewrite Hsz, Hok. rewrite (IH _ Hls). now rewrite emit_emit.
Qed.

Lemma copy_leaves_stops (pre post : list (ShapeIndex * DeviceMemoryBase))
      (leaf : ShapeIndex * DeviceMemoryBase) (s : State) :
  forallb copies pre = true ->
  copies leaf = false ->
  copy_leaves env stream dst (pre ++ leaf :: post) s =
  Return (leaf_failure env stream dst leaf)
         (emit (map leaf_copy pre ++ attempted env stream dst leaf) s).
Proof.
  unfold leaf_failure, attempted.
  revert s. induction pre as [|[index b] pre IH]; intros s Hpre Hleaf.
  - destruct leaf as [index b]. unfold copies, same_size in *. simpl in *.
    unfold bind, TF_RET_CHECK, TF_RETURN_IF_ERROR, call, ret, return_.
    destruct (N.eqb (size b) (size (buffer dst index))); simpl in *.
    + now rewrite Hleaf.
    + now rewrite emit_nil.
  - simpl in Hpre. apply andb_true_iff in Hpre as [Hc Hpre].
    unfold copies, same_size in Hc. simpl in Hc.
    apply andb_true_iff in Hc as [Hsz Hok].
    simpl. unfold bind at 1 2 3, TF_RET_CHECK, TF_RETURN_IF_ERROR, call, ret.
    rewrite Hsz, Hok. rewrite (IH _ Hpre Hleaf).
    now rewrite emit_emit.
Qed.

Lemma leaf_failure_not_ok (leaf : ShapeIndex * DeviceMemoryBase) :
  copies leaf = false -> ok (leaf_failure env stream dst leaf) = false.
Proof.
  unfold copies, leaf_failure. destruct (same_size leaf); simpl; auto.
Qed.

(** Every list of leaves is copied whole or has a first leaf that is not. *)
Lemma first_failure (ls : list (ShapeIndex * DeviceMemoryBase)) :
  forallb copies ls = true \/
  exists pre leaf post,
    ls = pre ++ leaf :: post /\ forallb copies pre = true /\ copies leaf = false.
Proof.
  induction ls as [|l ls IH]; simpl.
  - now left.
  - destruct (copies l) eqn:Hl.
    + destruct IH as [IH | (pre & leaf & post & -> & Hpre & Hleaf)].
      * now left.
      * right. exists (l :: pre), leaf, post. simpl. now rewrite Hl.
    + right. now exists [], l, ls.
Qed.

(** The first leaf that does not copy is determined by the list. *)
Lemma first_failure_unique (pre pre' post post' : list (ShapeIndex * DeviceMemoryBase))
      (leaf leaf' : ShapeIndex * DeviceMemoryBase) :
  pre ++ leaf :: post = pre' ++ leaf' :: post' ->
  forallb copies pre = true -> copies leaf = false ->
  forallb copies pre' = true -> copies leaf' = false ->
  pre = pre' /\ leaf = leaf' /\ post = post'.
Proof.
  revert pre'. induction pre as [|x pre IH]; intros [|y pre'] E Hp Hl Hp' Hl';
    simpl in *.
  - injection E as -> ->. auto.
  - injection E as -> _. apply andb_true_iff in Hp' as [Hy _]. congruence.
  - injection E as -> _. apply andb_true_iff in Hp as [Hx _]. congruence.
  - injection E as -> E. apply andb_true_iff in Hp as [_ Hp].
    apply andb_true_iff in Hp' as [_ Hp'].
    destruct (IH pre' E Hp Hl Hp' Hl') as (-> & -> & ->). auto.
Qed.

Lemma not_all_copy (pre post : list (ShapeIndex * DeviceMemoryBase))
      (leaf : ShapeIndex * DeviceMemoryBase) :
  copies leaf = false -> forallb copies (pre ++ leaf :: post) = false.
Proof.
  intros H. rewrite forallb_app. simpl. rewrite H.
  now rewrite andb_false_r.
Qed.

(** The loop either runs to its end, having enqueued every leaf, or stops
    at the first leaf that does not copy and returns its failure. *)
Lemma copy_leaves_cases (ls : list (ShapeIndex * DeviceMemoryBase)) (s : State) :
  (forallb copies ls = true /\
   copy_leaves env stream dst ls s = Val tt (emit (map leaf_copy ls) s)) \/
  (exists pre leaf post,
      ls = pre ++ leaf :: post /\ forallb copies pre = true /\
      copies leaf = false /\
      copy_leaves env stream dst ls s =
      Return (leaf_failure env stream dst leaf)
             (emit (map leaf_copy pre ++ attempted env stream dst leaf) s)).
Proof.
  destruct (first_failure ls) as [H | (pre & leaf & post & -> & Hpre & Hleaf)].
  - left. split; [exact H | now apply copy_leaves_all].
  - right. exists pre, leaf, post. repeat split; auto.
    now apply copy_leaves_stops.
Qed.

End LeafLoop.

(** ** The other stages *)

Lemma check_initialized_eq (env : Env) (s : State) :
  check_initialized env s =
  if initialization_fails env
  then Return OK (emit (init_events env ++ [EvDone precondition_failure]) s)
  else Val tt (emit (init_events env) s).
Proof.
  unfold check_initialized, initialization_fails, init_events, when,
    CheckIfTPUInitialized, bind, call, done, ret, return_, precondition_failure.
  destruct (String.eqb (src_name env) (dst_name env)); simpl.
  - now rewrite emit_nil.
  - destruct (platform_Initialized env); simpl; now rewrite ?emit_emit.
Qed.

Lemma wait_for_destination_eq (env : Env) (stream : Stream) (dst : ShapedBuffer)
      (s : State) :
  wait_for_destination env stream dst s = Val tt (emit (wait_events env stream dst) s).
Proof.
  unfold wait_for_destination, wait_events, when, bind, call, ret.
  destruct (CanShapedBufferBeAccessedNow env dst); simpl; auto.
  destruct (IsTuple (on_device_shape dst)); now rewrite !emit_emit.
Qed.

Lemma write_tuple_index_tables_eq (env : Env) (stream : Stream) (dst : ShapedBuffer)
      (s : State) :
  write_tuple_index_tables env stream dst s =
  if index_tables_fail env dst
  then Return (WriteTupleIndexTablesAsync env (host_to_device_stream env) dst)
              (emit (index_table_events env stream dst) s)
  else Val tt (emit (index_table_events env stream dst) s).
Proof.
  unfold write_tuple_index_tables, index_tables_fail, index_table_events, when,
    bind, call, ret, return_, TF_RETURN_IF_ERROR.
  destruct (IsTuple (on_device_shape dst)); simpl.
  - destruct (ok (WriteTupleIndexTablesAsync env (host_to_device_stream env) dst));
      simpl; now rewrite ?emit_emit.
  - now rewrite emit_nil.
Qed.

Lemma index_tables_fail_not_ok (env : Env) (dst : ShapedBuffer) :
  index_tables_fail env dst = true ->
  ok (WriteTupleIndexTablesAsync env (host_to_device_stream env) dst) = false.
Proof.
  unfold index_tables_fail. intros H. apply andb_true_iff in H as [_ H].
  now apply negb_true_iff.
Qed.

(** ** Running the pending callbacks *)

Lemma RunHostCallbacks_none (s : State) :
  host_callbacks s = [] -> RunHostCallbacks s = s.
Proof.
  destruct s; simpl. intros ->. reflexivity.
Qed.

Lemma RunHostCallbacks_one (s : State) (stream : Stream) (cb : HostCallback) :
  host_callbacks s = [(stream, cb)] ->
  RunHostCallbacks s = exec (run_host_callback cb) (set_host_callbacks [] s).
Proof.
  unfold RunHostCallbacks. intros ->. reflexivity.
Qed.

(** ** Walking through the function *)

(** Unfolds the function down to the guards it branches on. *)
Ltac unfold_copy :=
  cbv beta iota zeta delta
    [TpuDeviceToDeviceCopy call_impl impl exec bind ret return_ when call
     modify get done assign_output CheckIfTPUInitialized RetCheckFailure
     TF_RET_CHECK TF_RET_CHECK_nonnull TF_RETURN_IF_ERROR TF_ASSIGN_OR_RETURN
     acquire_stream
     AllocateShapedBuffer_output install_shaped_buffer ResetDefinitionEvent
     TensorReference Unref ThenDoHostCallback ReturnSubStream run_cleanup
     run_host_callback snd fst
     emit set_trace set_output set_input_refcount set_return_substream
     set_host_callbacks set_should_use_substream
     trace output input_refcount return_substream host_callbacks
     should_use_substream tpu_use_substreams_for_cross_tpu_device_transfers_flag
     cl_device_to_device_master_stream cl_dst_device_to_device_stream
     cb_device_to_device_master_stream cb_dst_device_to_device_stream
     ok negb].

(** The guard a term is stuck on: the scrutinee at the bottom of its chain
    of matches. *)
Ltac stuck_on x :=
  lazymatch x with
  | match ?y with _ => _ end => stuck_on y
  | (match ?y with _ => _ end) _ => stuck_on y
  | RunHostCallbacks ?s =>
      lazymatch s with
      | Build_State _ _ _ _ _ _ _ => x
      | _ => stuck_on s
      end
  | _ => x
  end.

(** Paths on which a stage failed with the status OK do not exist. *)
Ltac impossible :=
  match goal with
  | H : false = true |- _ => discriminate H
  | H : true = false |- _ => discriminate H
  | H : index_tables_fail ?e ?b = true,
    H' : WriteTupleIndexTablesAsync ?e _ ?b = OK |- _ =>
      apply index_tables_fail_not_ok in H; rewrite H' in H; discriminate H
  | H : copies ?e ?d ?b ?l = false, H' : leaf_failure ?e ?d ?b ?l = OK |- _ =>
      apply leaf_failure_not_ok in H; rewrite H' in H; discriminate H
  end.

(** One step, in program order: a stage is replaced by its equation, the
    loop by its two outcomes, and the guard the function is stuck on is
    split. *)
Ltac branch :=
  match goal with
  | |- context [match ?x with _ => _ end] =>
      let y := stuck_on x in
      lazymatch y with
      | check_initialized ?e ?s => rewrite (check_initialized_eq e s)
      | wait_for_destination ?e ?d ?b ?s => rewrite (wait_for_destination_eq e d b s)
      | write_tuple_index_tables ?e ?d ?b ?s =>
          rewrite (write_tuple_index_tables_eq e d b s)
      | copy_leaves ?e ?d ?b ?l ?s =>
          let pre := fresh "pre" in
          let leaf := fresh "leaf" in
          let post := fresh "post" in
          let Hall := fresh "Hall" in
          let Hls := fresh "Hls" in
          let Hpre := fresh "Hpre" in
          let Hleaf := fresh "Hleaf" in
          destruct (copy_leaves_cases e d b l s)
            as [[Hall ->] | (pre & leaf & post & Hls & Hpre & Hleaf & ->)]
      | RunHostCallbacks ?s =>
          first [ rewrite (RunHostCallbacks_none s) by reflexivity
                | erewrite (RunHostCallbacks_one s) by reflexivity ]
      | _ =>
          lazymatch goal with
          | H : y = _ |- _ => rewrite H
          | _ => destruct y eqn:?; try discriminate; try impossible
          end
      end
  end; unfold_copy.

Ltac walk := unfold_copy; repeat branch.

(** Entering a proof about a call on [s]: the state is opened, the value of
    the function-local static becomes one boolean, and the call is walked
    through; each goal left is one path, with what it added to the trace. *)
Ltac enter s :=
  destruct s as [?flag ?sus ?out ?rc ?rs ?cbs ?tr];
  cbn [trace output input_refcount return_substream host_callbacks
       should_use_substream
       tpu_use_substreams_for_cross_tpu_device_transfers_flag] in *;
  subst;
  unfold emitted, completed, TpuDeviceToDeviceCopy;
  cbn [trace output input_refcount return_substream host_callbacks];
  match goal with
  | |- context [static_should_use_substream ?st] =>
      let use := fresh "use" in
      let Huse := fresh "Huse" in
      remember (static_should_use_substream st) as use eqn:Huse;
      unfold static_should_use_substream in Huse;
      cbn [should_use_substream
           tpu_use_substreams_for_cross_tpu_device_transfers_flag] in Huse;
      symmetry in Huse
  end;
  walk; rewrite <- ?app_assoc; cbn [app];
  rewrite ?skipn_prefix.

(** Brings both sides of an equation between traces to the same
    right-nested form. *)
Ltac flatten :=
  repeat (rewrite <- app_assoc || rewrite <- app_comm_cons); cbn [app].

(** ** Counting in traces made of blocks *)

Lemma count_leaf_copies (p : Event -> bool) (env : Env) (stream : Stream)
      (dst : ShapedBuffer) (ls : list (ShapeIndex * DeviceMemoryBase)) :
  (forall s a b r, p (EvEnqueueOnTpuDeviceSendRecvLocal s a b r) = false) ->
  count p (map (leaf_copy env stream dst) ls) = 0.
Proof.
  intros Hp. induction ls as [|l ls IH]; [reflexivity|].
  simpl. rewrite count_cons. unfold leaf_copy at 1. now rewrite Hp, IH.
Qed.

Lemma count_leaf_copies_self (env : Env) (stream : Stream)
      (dst : ShapedBuffer) (ls : list (ShapeIndex * DeviceMemoryBase)) :
  count is_leaf_copy (map (leaf_copy env stream dst) ls) = List.length ls.
Proof.
  induction ls as [|l ls IH]; [reflexivity|].
  simpl. rewrite count_cons. unfold leaf_copy at 1. simpl. now rewrite IH.
Qed.

Lemma count_leaf_copies_on (env : Env) (stream : Stream)
      (dst : ShapedBuffer) (ls : list (ShapeIndex * DeviceMemoryBase)) :
  count (is_leaf_copy_on stream) (map (leaf_copy env stream dst) ls)
  = List.length ls.
Proof.
  induction ls as [|l ls IH]; [reflexivity|].
  simpl. rewrite count_cons. unfold leaf_copy at 1. simpl.
  now rewrite Nat.eqb_refl, IH.
Qed.

Lemma count_init_events (p : Event -> bool) (env : Env) :
  (forall b, p (EvInitialized b) = false) ->
  count p (init_events env) = 0.
Proof.
  intros Hp. unfold init_events.
  destruct (String.eqb (src_name env) (dst_name env)); [reflexivity|].
  now rewrite count_cons, Hp.
Qed.

Lemma count_wait_events (p : Event -> bool) (env : Env) (stream : Stream)
      (dst : ShapedBuffer) :
  (forall b, p (EvCanShapedBufferBeAccessedNow b) = false) ->
  (forall a b, p (EvThenWaitFor a b) = false) ->
  count p (wait_events env stream dst) = 0.
Proof.
  intros Hc Hw. unfold wait_events.
  destruct (CanShapedBufferBeAccessedNow env dst);
    [| destruct (IsTuple (on_device_shape dst))];
    now rewrite ?count_cons, ?Hc, ?Hw.
Qed.

Lemma count_index_table_events (p : Event -> bool) (env : Env) (stream : Stream)
      (dst : ShapedBuffer) :
  (forall a r, p (EvWriteTupleIndexTablesAsync a r) = false) ->
  (forall a b, p (EvThenWaitFor a b) = false) ->
  count p (index_table_events env stream dst) = 0.
Proof.
  intros Hi Hw. unfold index_table_events.
  destruct (IsTuple (on_device_shape dst)); [|reflexivity].
  destruct (ok (WriteTupleIndexTablesAsync env (host_to_device_stream env) dst));
    now rewrite ?count_cons, ?Hi, ?Hw.
Qed.

Lemma count_attempted (p : Event -> bool) (env : Env) (stream : Stream)
      (dst : ShapedBuffer) (leaf : ShapeIndex * DeviceMemoryBase) :
  (forall s a b r, p (EvEnqueueOnTpuDeviceSendRecvLocal s a b r) = false) ->
  count p (attempted env stream dst leaf) = 0.
Proof.
  intros Hp. unfold attempted, leaf_copy.
  destruct (same_size dst leaf); [|reflexivity].
  now rewrite count_cons, Hp.
Qed.

(** Splits a count over the blocks of a trace and evaluates each block:
    by the lemmas above when the block cannot hold a counted event, by
    cases on its guards otherwise. *)
Ltac tally :=
  rewrite ?app_nil_r;
  repeat (rewrite count_app || rewrite count_cons);
  rewrite ?count_leaf_copies by (intros; reflexivity);
  rewrite ?count_leaf_copies_self;
  rewrite ?count_leaf_copies_on;
  rewrite ?count_init_events by (intros; reflexivity);
  rewrite ?count_wait_events by (intros; reflexivity);
  rewrite ?count_index_table_events by (intros; reflexivity);
  rewrite ?count_attempted by (intros; reflexivity).

Ltac blocks :=
  tally;
  unfold init_events, wait_events, index_table_events, attempted, leaf_copy;
  cbn;
  repeat match goal with
         | |- context [if ?b then _ else _] => destruct b; cbn
         end;
  try reflexivity.

(** The same for a hypothesis whose blocks cannot hold a counted event. *)
Ltac blocks_in H :=
  rewrite ?app_nil_r in H;
  repeat (rewrite count_app in H || rewrite count_cons in H);
  rewrite ?count_leaf_copies in H by (intros; reflexivity);
  rewrite ?count_leaf_copies_self in H;
  rewrite ?count_init_events in H by (intros; reflexivity);
  rewrite ?count_wait_events in H by (intros; reflexivity);
  rewrite ?count_index_table_events in H by (intros; reflexivity);
  rewrite ?count_attempted in H by (intros; reflexivity);
  cbn in H;
  try discriminate H.

(** ** The trace only grows *)

Lemma trace_emitted (env : Env) (s : State) :
  trace (TpuDeviceToDeviceCopy env s) = trace s ++ emitted env s.
Proof. enter s; reflexivity. Qed.

Lemma trace_completed (env : Env) (s : State) :
  host_callbacks s = [] ->
  trace (RunHostCallbacks (TpuDeviceToDeviceCopy env s)) = trace s ++ completed env s.
Proof. intros Hcb. enter s; reflexivity. Qed.

(** ** The completion callback *)

(** C1.  With no other transfer pending, a call of [TpuDeviceToDeviceCopy]
    followed by the stream running its host callbacks invokes [done]
    exactly once, on every path.  Either the call itself invokes it once and
    leaves no callback behind, or the call does not invoke it and leaves
    exactly one host callback, which invokes it when the stream runs it.
    The function yields no status: its model returns the state alone. *)
Theorem done_called_exactly_once (env : Env) (s : State) :
  host_callbacks s = [] ->
  count is_done (completed env s) = 1 /\
  host_callbacks (RunHostCallbacks (TpuDeviceToDeviceCopy env s)) = [] /\
  ((count is_done (emitted env s) = 1 /\
    host_callbacks (TpuDeviceToDeviceCopy env s) = []) \/
   (count is_done (emitted env s) = 0 /\
    exists stream cb,
      host_callbacks (TpuDeviceToDeviceCopy env s) = [(stream, cb)])).
Proof.
  intros Hcb. enter s.
  all: split; [solve [blocks]|]; split; [reflexivity|].
  all: first [ left; split; [solve [blocks] | reflexivity]
             | right; split; [solve [blocks] | eauto] ].
Qed.

Lemma done_called_exactly_once_witness :
  let env := Examples.env true false false true Examples.pair1024 4096 4096 in
  let s := Examples.start true (Examples.declared DT_FLOAT [1024%N]) in
  host_callbacks s = [] /\
  count is_done (completed env s) = 1 /\
  host_callbacks (RunHostCallbacks (TpuDeviceToDeviceCopy env s)) = [] /\
  ((count is_done (emitted env s) = 1 /\
    host_callbacks (TpuDeviceToDeviceCopy env s) = []) \/
   (count is_done (emitted env s) = 0 /\
    exists stream cb,
      host_callbacks (TpuDeviceToDeviceCopy env s) = [(stream, cb)])).
Proof.
  intros env s. split; [reflexivity|].
  apply (done_called_exactly_once env s). reflexivity.
Defined.

(** ** The pooled substream *)

(** C2.  With no other transfer pending: over the whole transfer each
    substream is returned to its master stream exactly as often as it was
    checked out, which is at most once.  When the call checks one out
    (pooling is on and the acquisition is reached), it is returned either
    before the call ends, by the cleanup object, the call reporting an error
    and leaving no callback behind; or not during the call, the cleanup
    being disarmed and the one pending host callback holding the master
    stream and the substream it will return. *)
Theorem substream_returned_exactly_once (env : Env) (s : State) :
  host_callbacks s = [] ->
  (forall master sub,
      count (returns master sub) (completed env s) =
      count (checks_out master sub) (completed env s)) /\
  count is_return_substream (completed env s) =
  count is_substream_checkout (completed env s) /\
  count is_substream_checkout (completed env s) <= 1 /\
  (count is_substream_checkout (emitted env s) = 1 ->
   static_should_use_substream s = true /\
   return_substream (TpuDeviceToDeviceCopy env s) = None /\
   ((count is_return_substream (emitted env s) = 1 /\
     count is_done (emitted env s) = 1 /\
     count is_done_ok (emitted env s) = 0 /\
     host_callbacks (TpuDeviceToDeviceCopy env s) = []) \/
    (count is_return_substream (emitted env s) = 0 /\
     count is_done (emitted env s) = 0 /\
     exists master sub,
       count (checks_out master sub) (emitted env s) = 1 /\
       host_callbacks (TpuDeviceToDeviceCopy env s) =
       [(sub, {| cb_device_to_device_master_stream := Some master;
                 cb_dst_device_to_device_stream := sub |})]))).
Proof.
  intros Hcb. enter s.
  all: split; [intros master sub; solve [blocks] |].
  all: split; [solve [blocks]|]; split; [solve [blocks; lia] | ].
  all: intros H; blocks_in H.
  all: (split; [reflexivity|]); (split; [reflexivity|]).
  all: first [ left; repeat split; solve [blocks]
             | right; split; [solve [blocks] |]; split; [solve [blocks] |] ].
  all: do 2 eexists; split; [|reflexivity].
  all: tally; cbn; now rewrite !Nat.eqb_refl.
Qed.

Lemma substream_returned_exactly_once_witness :
  let env := Examples.env true false false true Examples.pair1024 4096 8 in
  let s := Examples.start true (Examples.declared DT_FLOAT [1024%N]) in
  host_callbacks s = [] /\
  (forall master sub,
      count (returns master sub) (completed env s) =
      count (checks_out master sub) (completed env s)) /\
  count is_return_substream (completed env s) =
  count is_substream_checkout (completed env s) /\
  count is_substream_checkout (completed env s) <= 1 /\
  (count is_substream_checkout (emitted env s) = 1 ->
   static_should_use_substream s = true /\
   return_substream (TpuDeviceToDeviceCopy env s) = None /\
   ((count is_return_substream (emitted env s) = 1 /\
     count is_done (emitted env s) = 1 /\
     count is_done_ok (emitted env s) = 0 /\
     host_callbacks (TpuDeviceToDeviceCopy env s) = []) \/
    (count is_return_substream (emitted env s) = 0 /\
     count is_done (emitted env s) = 0 /\
     exists master sub,
       count (checks_out master sub) (emitted env s) = 1 /\
       host_callbacks (TpuDeviceToDeviceCopy env s) =
       [(sub, {| cb_device_to_device_master_stream := Some master;
                 cb_dst_device_to_device_stream := sub |})]))).
Proof.
  intros env s. split; [reflexivity|].
  apply (substream_returned_exactly_once env s). reflexivity.
Defined.

(** ** Comparing types and shapes *)

Lemma DataType_eqb_eq (a b : DataType) : DataType_eqb a b = true <-> a = b.
Proof.
  unfold DataType_eqb. destruct (DataType_eq_dec a b); split; congruence.
Qed.

Lemma TensorShape_eqb_eq (a b : TensorShape) : TensorShape_eqb a b = true <-> a = b.
Proof.
  revert b. induction a as [|x a IH]; intros [|y b]; simpl; split;
    try congruence.
  - intros H. apply andb_true_iff in H as [Hx Hab].
    apply N.eqb_eq in Hx. apply IH in Hab. congruence.
  - intros H. injection H as -> ->. rewrite N.eqb_refl. now apply IH.
Qed.

Lemma DataType_eqb_neq (a b : DataType) : a <> b -> DataType_eqb a b = false.
Proof.
  intros H. destruct (DataType_eqb a b) eqn:E; [|reflexivity].
  now apply DataType_eqb_eq in E.
Qed.

Lemma TensorShape_eqb_neq (a b : TensorShape) : a <> b -> TensorShape_eqb a b = false.
Proof.
  intros H. destruct (TensorShape_eqb a b) eqn:E; [|reflexivity].
  now apply TensorShape_eqb_eq in E.
Qed.

Lemma allocated_output (t : Tensor) (sb : ShapedBuffer) :
  xla_shaped_buffer t = Some sb -> xla_output_unallocated t = false.
Proof.
  unfold xla_shaped_buffer, xla_output_unallocated, has_shaped_buffer.
  destruct (FromTensor t) as [x|]; [|discriminate]. now intros ->.
Qed.

(** ** Tensors without elements *)

(** C3, as stated, fails: between two different devices on a platform that
    is not initialised, a zero-element tensor is answered with the failed
    precondition, not with success. *)
Lemma zero_elements_reported_as_failure :
  let env := Examples.env false false true false (Examples.bare DT_FLOAT [0%N]) 0 0 in
  let s := Examples.start true (Examples.declared DT_FLOAT [0%N]) in
  num_elements (shape (input env)) = 0%N /\
  emitted env s = [EvInitialized false; EvDone precondition_failure] /\
  count is_done_ok (completed env s) = 0.
Proof. repeat split. Qed.

(** C3, amended.  For an input without elements the call performs no device
    operation: it asks the platform whether it is initialised when the two
    devices differ, and invokes [done] once, with success unless that check
    fails; no stream command, no checkout of a stream, no allocation, no
    callback left pending, the output and the reference count untouched. *)
Theorem zero_elements_no_device_operation (env : Env) (s : State) :
  num_elements (shape (input env)) = 0%N ->
  emitted env s =
    init_events env
      ++ [EvDone (if initialization_fails env then precondition_failure else OK)] /\
  count is_done (emitted env s) = 1 /\
  none is_stream_command (emitted env s) /\
  none is_checkout (emitted env s) /\
  none is_allocation (emitted env s) /\
  host_callbacks (TpuDeviceToDeviceCopy env s) = host_callbacks s /\
  output (TpuDeviceToDeviceCopy env s) = output s /\
  input_refcount (TpuDeviceToDeviceCopy env s) = input_refcount s.
Proof.
  intros Hzero. apply N.eqb_eq in Hzero. unfold none. enter s.
  all: split; [reflexivity|]; repeat split; solve [blocks].
Qed.

Lemma zero_elements_no_device_operation_witness :
  let env := Examples.env true false true false (Examples.bare DT_FLOAT [0%N]) 0 0 in
  let s := Examples.start true (Examples.declared DT_FLOAT [0%N]) in
  num_elements (shape (input env)) = 0%N /\
  emitted env s =
    init_events env
      ++ [EvDone (if initialization_fails env then precondition_failure else OK)] /\
  count is_done (emitted env s) = 1 /\
  none is_stream_command (emitted env s) /\
  none is_checkout (emitted env s) /\
  none is_allocation (emitted env s) /\
  host_callbacks (TpuDeviceToDeviceCopy env s) = host_callbacks s /\
  output (TpuDeviceToDeviceCopy env s) = output s /\
  input_refcount (TpuDeviceToDeviceCopy env s) = input_refcount s.
Proof.
  intros env s. split; [reflexivity|].
  apply (zero_elements_no_device_operation env s). reflexivity.
Defined.

(** ** Streams that share their memory *)



(** ** Disagreeing types and shapes *)

(** C5, as stated, fails: the element count is looked at before the types
    and shapes are compared, so a source without elements is answered with
    success although both its type and its shape differ from the
    destination's. *)
Lemma zero_elements_mismatch_accepted :
  let env := Examples.env true false true false
               (Examples.bare DT_INT32 [0%N; 3%N]) 0 0 in
  let s := Examples.start true (Examples.declared DT_FLOAT [3%N; 0%N]) in
  dtype (input env) <> dtype (output s) /\
  shape (input env) <> shape (output s) /\
  emitted env s = [EvInitialized true; EvDone OK] /\
  count is_done_ok (completed env s) = 1.
Proof. repeat split; discriminate. Qed.

(** C5, amended.  When the types or the shapes of source and destination
    disagree, nothing is allocated, no stream is checked out, no stream
    command is enqueued, and [done] is invoked once by the call itself; for
    a source with at least one element the status it receives is an
    error. *)
Theorem mismatch_rejected (env : Env) (s : State) :
  dtype (input env) <> dtype (output s) \/ shape (input env) <> shape (output s) ->
  count is_done (emitted env s) = 1 /\
  none is_allocation (emitted env s) /\
  none is_stream_command (emitted env s) /\
  none is_checkout (emitted env s) /\
  host_callbacks (TpuDeviceToDeviceCopy env s) = host_callbacks s /\
  output (TpuDeviceToDeviceCopy env s) = output s /\
  (num_elements (shape (input env)) <> 0%N ->
   count is_done_ok (emitted env s) = 0).
Proof.
  intros [H | H];
    [apply DataType_eqb_neq in H | apply TensorShape_eqb_neq in H];
    unfold none; enter s.
  all: repeat split; try solve [blocks].
  all: intros Hne; try solve [blocks].
  all: exfalso; apply Hne; now apply N.eqb_eq.
Qed.

Lemma mismatch_rejected_witness :
  let env := Examples.env true false true false
               (Examples.defined DT_FLOAT [2%N; 3%N] [([], Examples.mem 4096 24)])
               24 24 in
  let s := Examples.start true (Examples.declared DT_FLOAT [3%N; 2%N]) in
  (dtype (input env) <> dtype (output s) \/ shape (input env) <> shape (output s)) /\
  num_elements (shape (input env)) <> 0%N /\
  count is_done (emitted env s) = 1 /\
  none is_allocation (emitted env s) /\
  none is_stream_command (emitted env s) /\
  none is_checkout (emitted env s) /\
  host_callbacks (TpuDeviceToDeviceCopy env s) = host_callbacks s /\
  output (TpuDeviceToDeviceCopy env s) = output s /\
  (num_elements (shape (input env)) <> 0%N ->
   count is_done_ok (emitted env s) = 0).
Proof.
  intros env s.
  assert (H : dtype (input env) <> dtype (output s)
              \/ shape (input env) <> shape (output s))
    by (right; discriminate).
  split; [exact H|]. split; [discriminate|].
  exact (mismatch_rejected env s H).
Defined.

(** ** Tensors without, or already with, a buffer *)

(** C10, as stated, fails twice: a source without elements has no buffer
    and is answered with success, and so is a source without buffer whose
    stream shares its memory with the destination's; neither path looks at
    the buffers. *)
Lemma missing_buffer_accepted :
  let s := Examples.start true (Examples.declared DT_FLOAT [0%N]) in
  let s' := Examples.start true (Examples.declared DT_FLOAT [1024%N]) in
  let empty := Examples.env true false true false (Examples.bare DT_FLOAT [0%N]) 0 0 in
  let same := Examples.env true true true false (Examples.bare DT_FLOAT [1024%N]) 0 0 in
  xla_shaped_buffer (input empty) = None /\
  emitted empty s = [EvInitialized true; EvDone OK] /\
  xla_shaped_buffer (input same) = None /\
  emitted same s' =
    [EvInitialized true; EvIsSameSharedMemoryLocation 1 2 true; EvDone OK].
Proof. repeat split. Qed.

(** C10, amended.  When the source has at least one element and its stream
    does not share its memory with the destination's, a source without
    shaped buffer or a destination that already has one makes the call
    invoke [done] once with an error; nothing is allocated, no command is
    put on a stream, no callback is left pending, and every substream
    checked out has been returned when the call ends. *)
Theorem missing_or_present_buffer_rejected (env : Env) (s : State) :
  xla_shaped_buffer (input env) = None \/
  (exists sb, xla_shaped_buffer (output s) = Some sb) ->
  num_elements (shape (input env)) <> 0%N ->
  (forall src, src_stream env = Some src ->
               IsSameSharedMemoryLocation env src (dst_stream env) = false) ->
  count is_done (emitted env s) = 1 /\
  count is_done_ok (emitted env s) = 0 /\
  none is_allocation (emitted env s) /\
  none is_stream_command (emitted env s) /\
  count is_return_substream (emitted env s) =
  count is_substream_checkout (emitted env s) /\
  (forall master sub,
      count (returns master sub) (emitted env s) =
      count (checks_out master sub) (emitted env s)) /\
  host_callbacks (TpuDeviceToDeviceCopy env s) = host_callbacks s.
Proof.
  intros H Hne Hsame. apply N.eqb_neq in Hne.
  destruct H as [H | [sb H]]; [| apply allocated_output in H];
    unfold none; enter s.
  all: try match goal with
           | Ht : IsSameSharedMemoryLocation _ _ _ = true |- _ =>
               rewrite Hsame in Ht by (assumption || reflexivity);
               discriminate Ht
           end.
  all: repeat split; try solve [intros; blocks].
Qed.

Lemma missing_or_present_buffer_rejected_witness :
  let env := Examples.env true false true false (Examples.bare DT_FLOAT [1024%N]) 0 0 in
  let s := Examples.start true (Examples.declared DT_FLOAT [1024%N]) in
  (xla_shaped_buffer (input env) = None \/
   (exists sb, xla_shaped_buffer (output s) = Some sb)) /\
  num_elements (shape (input env)) <> 0%N /\
  (forall src, src_stream env = Some src ->
               IsSameSharedMemoryLocation env src (dst_stream env) = false) /\
  count is_done (emitted env s) = 1 /\
  count is_done_ok (emitted env s) = 0 /\
  none is_allocation (emitted env s) /\
  none is_stream_command (emitted env s) /\
  count is_return_substream (emitted env s) =
  count is_substream_checkout (emitted env s) /\
  (forall master sub,
      count (returns master sub) (emitted env s) =
      count (checks_out master sub) (emitted env s)) /\
  host_callbacks (TpuDeviceToDeviceCopy env s) = host_callbacks s.
Proof.
  intros env s.
  assert (H : xla_shaped_buffer (input env) = None
              \/ (exists sb, xla_shaped_buffer (output s) = Some sb))
    by (left; reflexivity).
  assert (Hne : num_elements (shape (input env)) <> 0%N) by discriminate.
  assert (Hsame : forall src, src_stream env = Some src ->
                    IsSameSharedMemoryLocation env src (dst_stream env) = false)
    by reflexivity.
  split; [exact H|]. split; [exact Hne|]. split; [exact Hsame|].
  exact (missing_or_present_buffer_rejected env s H Hne Hsame).
Defined.

(** ** Leaves of different sizes *)

(** C6, as stated, fails: the sizes are compared leaf by leaf inside the
    loop that enqueues the copies.  With two source leaves of 4096 bytes and
    a destination whose second leaf has 8 bytes, the copy of the first leaf
    has been enqueued on the chosen stream when the second leaf is
    rejected. *)
Lemma first_leaf_copied_before_mismatch :
  let env := Examples.env true false true true Examples.pair1024 4096 8 in
  let s := Examples.start true (Examples.declared DT_FLOAT [1024%N]) in
  let sh := TupleShape [ArrayShape DT_FLOAT [1024%N]; ArrayShape DT_FLOAT [1024%N]] in
  let dst := Examples.allocated sh 4096 8 in
  same_size dst ([1], Examples.mem 16384 4096) = false /\
  count is_leaf_copy (emitted env s) = 1 /\
  emitted env s =
    [EvInitialized true;
     EvIsSameSharedMemoryLocation 1 2 false;
     EvGetOrCreateSubStream 3 (Some 4);
     EvShapeRepresentationFn [1024%N] DT_FLOAT false;
     EvAllocateShapedBuffer DT_FLOAT sh 1 OK;
     EvWaitForDefinitionEventOnStream 4;
     EvCanShapedBufferBeAccessedNow true;
     EvEnqueueOnTpuDeviceSendRecvLocal 4
       (Examples.mem 4096 4096) (Examples.mem 8192 4096) OK;
     EvReturnSubStream 3 4;
     EvDone (size_failure dst ([1], Examples.mem 16384 4096))].
Proof. repeat split. Qed.

(** C6, amended.  When the call reaches the copy stage on [stream] and the
    loop comes to a source leaf whose size differs from that of the
    destination leaf at the same index, the leaves before it having been
    enqueued, the call ends with the copies of exactly those earlier leaves
    on the trace: none for the leaf that differs, none for a later one.  It
    writes no index table, records no definition event, leaves no callback
    pending, and invokes [done] once with an internal error that names both
    sizes. *)
Theorem size_mismatch_stops_the_copies (env : Env) (s : State)
        (src : ShapedBuffer) (sh : XlaShape) (dst : ShapedBuffer) (stream : Stream)
        (pre post : list (ShapeIndex * DeviceMemoryBase))
        (leaf : ShapeIndex * DeviceMemoryBase) :
  xla_shaped_buffer (input env) = Some src ->
  shape_representation_fn env (shape (input env)) (dtype (input env)) false = Value sh ->
  AllocateShapedBuffer env (dtype (input env)) sh (dst_device_ordinal env) = Value dst ->
  leaves src = pre ++ leaf :: post ->
  forallb (copies env stream dst) pre = true ->
  same_size dst leaf = false ->
  count (waits_for_source stream) (emitted env s) = 1 ->
  (exists before cleanup,
      emitted env s =
        before ++ map (leaf_copy env stream dst) pre
               ++ cleanup ++ [EvDone (size_failure dst leaf)] /\
      none is_leaf_copy before /\ none is_leaf_copy cleanup) /\
  count is_leaf_copy (emitted env s) = List.length pre /\
  none is_index_table_write (emitted env s) /\
  none is_record_event (emitted env s) /\
  count is_done (emitted env s) = 1 /\
  is_internal (size_failure dst leaf) = true /\
  host_callbacks (TpuDeviceToDeviceCopy env s) = host_callbacks s.
Proof.
  intros Hin Hsh Hal Hls Hpre Hsize.
  assert (Hleaf : copies env stream dst leaf = false)
    by (unfold copies; now rewrite Hsize).
  unfold none. enter s.
  all: intros H; blocks_in H.
  all: match type of H with
       | context [Nat.eqb ?a ?b] =>
           destruct (Nat.eqb_spec a b); [subst; clear H | discriminate H]
       end.
  all: try match goal with
           | E : forallb _ (leaves _) = true |- _ =>
               rewrite Hls, not_all_copy in E by exact Hleaf; discriminate E
           end.
  all: match goal with
       | E : leaves _ = ?p ++ ?l :: ?q, Ep : forallb _ ?p = true,
         El : copies _ _ _ ?l = false |- _ =>
           rewrite Hls in E;
           destruct (first_failure_unique _ _ _ _ _ _ _ _ _ E Hpre Hleaf Ep El)
             as (<- & <- & <-);
           clear E Ep El
       end.
  all: match goal with
       | E : leaf_failure _ _ _ _ = _ |- _ => rewrite <- E; clear E
       end.
  all: unfold attempted, leaf_failure; rewrite Hsize; cbn [app].
  all: split;
    [ match goal with
      | |- exists before cleanup,
          ?I ++ ?e1 :: ?e2 :: ?e3 :: ?e4 :: ?e5 :: ?W ++ ?M ++ ?rest = _ /\ _ =>
          exists (I ++ e1 :: e2 :: e3 :: e4 :: e5 :: W);
          match rest with
          | [?r; _] => exists [r]
          | [_] => exists []
          end
      end;
      split; [flatten; reflexivity | split; solve [blocks]]
    | repeat split; first [solve [blocks] | solve [tally; cbn; lia]] ].
Qed.

Lemma size_mismatch_stops_the_copies_witness :
  let env := Examples.env true false true true Examples.pair1024 4096 8 in
  let s := Examples.start true (Examples.declared DT_FLOAT [1024%N]) in
  let src := {| on_device_shape := ArrayShape DT_FLOAT [1024%N];
                leaves := [([0], Examples.mem 4096 4096);
                           ([1], Examples.mem 16384 4096)];
                buffer := fun _ => Examples.mem 4096 4096 |} in
  let sh := TupleShape [ArrayShape DT_FLOAT [1024%N]; ArrayShape DT_FLOAT [1024%N]] in
  let dst := Examples.allocated sh 4096 8 in
  let pre := [([0], Examples.mem 4096 4096)] in
  let leaf := ([1], Examples.mem 16384 4096) in
  xla_shaped_buffer (input env) = Some src /\
  leaves src = pre ++ leaf :: [] /\
  forallb (copies env 4 dst) pre = true /\
  same_size dst leaf = false /\
  count (waits_for_source 4) (emitted env s) = 1 /\
  (exists before cleanup,
      emitted env s =
        before ++ map (leaf_copy env 4 dst) pre
               ++ cleanup ++ [EvDone (size_failure dst leaf)] /\
      none is_leaf_copy before /\ none is_leaf_copy cleanup) /\
  count is_leaf_copy (emitted env s) = List.length pre /\
  none is_index_table_write (emitted env s) /\
  none is_record_event (emitted env s) /\
  count is_done (emitted env s) = 1 /\
  is_internal (size_failure dst leaf) = true /\
  host_callbacks (TpuDeviceToDeviceCopy env s) = host_callbacks s.
Proof.
  intros env s src sh dst pre leaf.
  do 5 (split; [reflexivity|]).
  apply (@size_mismatch_stops_the_copies env s src sh dst 4 pre [] leaf);
    reflexivity.
Defined.

(** ** Tuple-shaped destinations *)

(** C7.  When the destination's physical shape is a tuple and the call gets
    as far as recording the new definition event, the trace reads: every
    leaf copy, then the write of the index tables on the host-to-device
    stream, then the chosen stream waiting for the host-to-device stream,
    and only later the recording of the definition event on the chosen
    stream.  The chosen stream is the destination device-to-device stream
    that lines 114-121 acquired.  Every leaf of the source buffer has been
    enqueued, on that stream, before the index tables are written, and
    nothing is copied afterwards. *)
Theorem index_tables_before_definition_event (env : Env) (s : State)
        (src : ShapedBuffer) (sh : XlaShape) (dst : ShapedBuffer) :
  xla_shaped_buffer (input env) = Some src ->
  shape_representation_fn env (shape (input env)) (dtype (input env)) false = Value sh ->
  AllocateShapedBuffer env (dtype (input env)) sh (dst_device_ordinal env) = Value dst ->
  IsTuple (on_device_shape dst) = true ->
  count is_then_record_event (emitted env s) = 1 ->
  exists stream before between after,
    chosen_stream env s = Some stream /\
    emitted env s =
      before
        ++ EvWriteTupleIndexTablesAsync (host_to_device_stream env) OK
        :: EvThenWaitFor stream (host_to_device_stream env)
        :: between ++ EvThenRecordEvent stream :: after /\
    count is_leaf_copy before = List.length (leaves src) /\
    count (is_leaf_copy_on stream) before = List.length (leaves src) /\
    none is_index_table_write before /\
    none is_record_event before /\
    none is_leaf_copy between /\
    none is_record_event between /\
    none is_leaf_copy after /\
    none is_index_table_write after.
Proof.
  intros Hin Hsh Hal Htuple. unfold none, chosen_stream. enter s.
  all: intros H; blocks_in H.
  all: match goal with
       | E : index_tables_fail _ _ = false |- _ =>
           unfold index_tables_fail in E; rewrite Htuple in E;
           apply negb_false_iff in E
       end.
  all: unfold index_table_events; rewrite Htuple.
  all: match goal with
       | E : ok ?st = true |- _ => rewrite E; destruct st; [clear E | discriminate E]
       end.
  all: match goal with
       | |- exists stream before between after,
           _ /\ ?I ++ ?e1 :: ?e2 :: ?e3 :: ?e4 :: ?e5 :: ?W ++ ?M
              ++ [_; EvThenWaitFor ?st _]
              ++ [?i; EvThenRecordEvent _; ?r; ?t; ?c] = _ /\ _ =>
           exists st, (I ++ e1 :: e2 :: e3 :: e4 :: e5 :: W ++ M), [i], [r; t; c]
       end.
  all: split; [reflexivity|].
  all: split; [flatten; reflexivity|].
  all: repeat split; solve [blocks].
Qed.

Lemma index_tables_before_definition_event_witness :
  let env := Examples.env true false false true Examples.pair1024 4096 4096 in
  let s := Examples.start true (Examples.declared DT_FLOAT [1024%N]) in
  let src := {| on_device_shape := ArrayShape DT_FLOAT [1024%N];
                leaves := [([0], Examples.mem 4096 4096);
                           ([1], Examples.mem 16384 4096)];
                buffer := fun _ => Examples.mem 4096 4096 |} in
  let sh := TupleShape [ArrayShape DT_FLOAT [1024%N]; ArrayShape DT_FLOAT [1024%N]] in
  let dst := Examples.allocated sh 4096 4096 in
  xla_shaped_buffer (input env) = Some src /\
  shape_representation_fn env (shape (input env)) (dtype (input env)) false = Value sh /\
  AllocateShapedBuffer env (dtype (input env)) sh (dst_device_ordinal env) = Value dst /\
  IsTuple (on_device_shape dst) = true /\
  count is_then_record_event (emitted env s) = 1 /\
  exists stream before between after,
    chosen_stream env s = Some stream /\
    emitted env s =
      before
        ++ EvWriteTupleIndexTablesAsync (host_to_device_stream env) OK
        :: EvThenWaitFor stream (host_to_device_stream env)
        :: between ++ EvThenRecordEvent stream :: after /\
    count is_leaf_copy before = List.length (leaves src) /\
    count (is_leaf_copy_on stream) before = List.length (leaves src) /\
    none is_index_table_write before /\
    none is_record_event before /\
    none is_leaf_copy between /\
    none is_record_event between /\
    none is_leaf_copy after /\
    none is_index_table_write after.
Proof.
  intros env s src sh dst.
  do 5 (split; [reflexivity|]).
  apply (@index_tables_before_definition_event env s src sh dst); reflexivity.
Defined.

(** ** Waiting before the copies *)

(** C8.  On every call that gets as far as allocating the destination
    buffer, the chosen stream, which is the destination device-to-device
    stream that lines 114-121 acquired, is made to wait for the definition
    event of the source before anything else is put on a stream, in
    particular before any leaf copy.  The transfer manager is asked next;
    when it answers that the destination cannot be accessed now, the chosen
    stream waits for the destination's compute stream, and so does the
    host-to-device stream when the destination's shape is a tuple.  No leaf
    copy comes before the end of these waits, and every leaf copy that
    follows is enqueued on the chosen stream. *)
Theorem waits_before_copies (env : Env) (s : State) (sh : XlaShape)
        (dst : ShapedBuffer) :
  shape_representation_fn env (shape (input env)) (dtype (input env)) false = Value sh ->
  AllocateShapedBuffer env (dtype (input env)) sh (dst_device_ordinal env) = Value dst ->
  count is_allocated (emitted env s) = 1 ->
  exists stream before after,
    chosen_stream env s = Some stream /\
    emitted env s =
      before ++ EvWaitForDefinitionEventOnStream stream
             :: wait_events env stream dst ++ after /\
    count (is_leaf_copy_on stream) after = count is_leaf_copy after /\
    none is_stream_command before /\
    none is_leaf_copy
      (before ++ EvWaitForDefinitionEventOnStream stream
              :: wait_events env stream dst) /\
    wait_events env stream dst =
      EvCanShapedBufferBeAccessedNow (CanShapedBufferBeAccessedNow env dst)
      :: (if CanShapedBufferBeAccessedNow env dst then []
          else EvThenWaitFor stream (dst_stream env)
               :: (if IsTuple (on_device_shape dst)
                   then [EvThenWaitFor (host_to_device_stream env) (dst_stream env)]
                   else [])).
Proof.
  intros Hsh Hal. unfold none, chosen_stream. enter s.
  all: intros H; blocks_in H.
  all: match goal with
       | |- exists stream before after,
           _ /\ ?I ++ ?e1 :: ?e2 :: ?e3 :: ?e4
              :: EvWaitForDefinitionEventOnStream ?st :: _ ++ ?rest = _ /\ _ =>
           exists st, (I ++ [e1; e2; e3; e4]), rest
       end.
  all: split; [reflexivity|].
  all: split; [flatten; reflexivity|].
  all: split;
    [ tally; unfold attempted, index_table_events, leaf_copy; cbn;
      rewrite ?Nat.eqb_refl;
      repeat match goal with
             | |- context [if ?b then _ else _] =>
                 destruct b; cbn; rewrite ?Nat.eqb_refl
             end;
      reflexivity |].
  all: split; [solve [blocks]|]; split; [solve [blocks]|].
  all: unfold wait_events;
    repeat match goal with
           | E : CanShapedBufferBeAccessedNow _ _ = _ |- _ => rewrite E
           | E : IsTuple _ = _ |- _ => rewrite E
           end;
    reflexivity.
Qed.

Lemma waits_before_copies_witness :
  let env := Examples.env true false false true Examples.pair1024 4096 4096 in
  let s := Examples.start true (Examples.declared DT_FLOAT [1024%N]) in
  let sh := TupleShape [ArrayShape DT_FLOAT [1024%N]; ArrayShape DT_FLOAT [1024%N]] in
  let dst := Examples.allocated sh 4096 4096 in
  shape_representation_fn env (shape (input env)) (dtype (input env)) false = Value sh /\
  AllocateShapedBuffer env (dtype (input env)) sh (dst_device_ordinal env) = Value dst /\
  count is_allocated (emitted env s) = 1 /\
  exists stream before after,
    chosen_stream env s = Some stream /\
    emitted env s =
      before ++ EvWaitForDefinitionEventOnStream stream
             :: wait_events env stream dst ++ after /\
    count (is_leaf_copy_on stream) after = count is_leaf_copy after /\
    none is_stream_command before /\
    none is_leaf_copy
      (before ++ EvWaitForDefinitionEventOnStream stream
              :: wait_events env stream dst) /\
    wait_events env stream dst =
      EvCanShapedBufferBeAccessedNow (CanShapedBufferBeAccessedNow env dst)
      :: (if CanShapedBufferBeAccessedNow env dst then []
          else EvThenWaitFor stream (dst_stream env)
               :: (if IsTuple (on_device_shape dst)
                   then [EvThenWaitFor (host_to_device_stream env) (dst_stream env)]
                   else [])).
Proof.
  intros env s sh dst. split; [reflexivity|]. split; [reflexivity|].
  split; [reflexivity|].
  apply (@waits_before_copies env s sh dst); reflexivity.
Defined.

(** ** The reference on the source tensor *)

(** C9, as stated, fails: on the same-location shortcut the buffer of the
    source is assigned to the output (line 109), which then is one more
    holder of it.  No reference is taken through [TensorReference] and no
    callback is left pending, yet the reference count of the source's
    buffer is 2 after the transfer where it was 1 before. *)
Lemma same_location_leaves_a_reference :
  let env := Examples.env true true true false Examples.float1024 4096 4096 in
  let s := Examples.start true (Examples.declared DT_FLOAT [1024%N]) in
  host_callbacks s = [] /\
  completed env s =
    [EvInitialized true; EvIsSameSharedMemoryLocation 1 2 true; EvDone OK] /\
  host_callbacks (TpuDeviceToDeviceCopy env s) = [] /\
  output (RunHostCallbacks (TpuDeviceToDeviceCopy env s)) = input env /\
  input_refcount s = 1 /\
  input_refcount (RunHostCallbacks (TpuDeviceToDeviceCopy env s)) = 2.
Proof. repeat split. Qed.

(** C9, amended.  With no other transfer pending, the transfer gives back
    every reference it takes through [TensorReference]: either the call
    invokes [done] itself and never takes one; or it takes one, does not
    release it before it returns, and the one host callback it leaves
    pending releases it, once.  The reference count of the source's buffer
    after the transfer is therefore the count before it, except on the
    same-location shortcut, where the output has become one more holder of
    the buffer and the count is one higher (unless the output held the
    buffer already). *)
Theorem transfer_reference_released_once (env : Env) (s : State) :
  host_callbacks s = [] ->
  (none reports_same_location (emitted env s) ->
   input_refcount (RunHostCallbacks (TpuDeviceToDeviceCopy env s))
   = input_refcount s) /\
  (count reports_same_location (emitted env s) = 1 ->
   input_refcount (RunHostCallbacks (TpuDeviceToDeviceCopy env s))
   = if output_holds_input_buffer env then input_refcount s
     else S (input_refcount s)) /\
  count reports_same_location (emitted env s) <= 1 /\
  count is_reference (completed env s) = count is_unref (completed env s) /\
  ((count is_done (emitted env s) = 1 /\
    count is_reference (emitted env s) = 0 /\
    count is_unref (completed env s) = 0 /\
    input_refcount (TpuDeviceToDeviceCopy env s)
    = input_refcount (RunHostCallbacks (TpuDeviceToDeviceCopy env s)) /\
    host_callbacks (TpuDeviceToDeviceCopy env s) = []) \/
   (count is_done (emitted env s) = 0 /\
    none reports_same_location (emitted env s) /\
    count is_reference (emitted env s) = 1 /\
    count is_unref (emitted env s) = 0 /\
    count is_unref (completed env s) = 1 /\
    input_refcount (TpuDeviceToDeviceCopy env s) = S (input_refcount s) /\
    exists stream cb,
      host_callbacks (TpuDeviceToDeviceCopy env s) = [(stream, cb)])).
Proof.
  intros Hcb. unfold none. enter s.
  all: split; [intros H; blocks_in H; reflexivity|].
  all: split; [intros H; blocks_in H; reflexivity|].
  all: split; [tally; cbn; lia|].
  all: split; [solve [blocks]|].
  all: first [ left; repeat split; solve [blocks]
             | right; repeat split; try solve [blocks]; eauto ].
Qed.

Lemma transfer_reference_released_once_witness :
  let env := Examples.env true false true false Examples.float1024 4096 4096 in
  let s := Examples.start true (Examples.declared DT_FLOAT [1024%N]) in
  host_callbacks s = [] /\
  (none reports_same_location (emitted env s) ->
   input_refcount (RunHostCallbacks (TpuDeviceToDeviceCopy env s))
   = input_refcount s) /\
  (count reports_same_location (emitted env s) = 1 ->
   input_refcount (RunHostCallbacks (TpuDeviceToDeviceCopy env s))
   = if output_holds_input_buffer env then input_refcount s
     else S (input_refcount s)) /\
  count reports_same_location (emitted env s) <= 1 /\
  count is_reference (completed env s) = count is_unref (completed env s) /\
  ((count is_done (emitted env s) = 1 /\
    count is_reference (emitted env s) = 0 /\
    count is_unref (completed env s) = 0 /\
    input_refcount (TpuDeviceToDeviceCopy env s)
    = input_refcount (RunHostCallbacks (TpuDeviceToDeviceCopy env s)) /\
    host_callbacks (TpuDeviceToDeviceCopy env s) = []) \/
   (count is_done (emitted env s) = 0 /\
    none reports_same_location (emitted env s) /\
    count is_reference (emitted env s) = 1 /\
    count is_unref (emitted env s) = 0 /\
    count is_unref (completed env s) = 1 /\
    input_refcount (TpuDeviceToDeviceCopy env s) = S (input_refcount s) /\
    exists stream cb,
      host_callbacks (TpuDeviceToDeviceCopy env s) = [(stream, cb)])).
Proof.
  intros env s. split; [reflexivity|].
  apply (transfer_reference_released_once env s). reflexivity.
Defined.

(** * Further properties of the copy *)

(** ** The end of a trace *)

Lemma ends_one (e : Event) : exists before, [e] = before ++ [e].
Proof. now exists []. Qed.

Lemma ends_cons (x e : Event) (l : list Event) :
  (exists before, l = before ++ [e]) -> exists before, x :: l = before ++ [e].
Proof. intros [b ->]. now exists (x :: b). Qed.

Lemma ends_app (a l : list Event) (e : Event) :
  (exists before, l = before ++ [e]) -> exists before, a ++ l = before ++ [e].
Proof. intros [b ->]. exists (a ++ b). now rewrite app_assoc. Qed.

(** Finds the last event of a trace written as blocks. *)
Ltac ends :=
  repeat first [ apply ends_one | apply ends_app | apply ends_cons ].

(** X3.  Invoking [done] is the last thing a transfer does: with no other
    transfer pending, the trace of the call and of the callbacks it left
    behind ends with a call of [done]; and when the call itself
    invokes [done], nothing follows it in the call. *)
Theorem done_is_last (env : Env) (s : State) :
  host_callbacks s = [] ->
  (exists st before, completed env s = before ++ [EvDone st]) /\
  (count is_done (emitted env s) = 1 ->
   exists st before, emitted env s = before ++ [EvDone st]).
Proof.
  intros Hcb. enter s.
  all: split; [eexists; ends|].
  all: intros H; blocks_in H.
  all: eexists; ends.
Qed.

Lemma done_is_last_witness :
  let env := Examples.env true false false true Examples.pair1024 4096 8 in
  let s := Examples.start true (Examples.declared DT_FLOAT [1024%N]) in
  host_callbacks s = [] /\
  (exists st before, completed env s = before ++ [EvDone st]) /\
  (count is_done (emitted env s) = 1 ->
   exists st before, emitted env s = before ++ [EvDone st]).
Proof.
  intros env s. split; [reflexivity|].
  apply (@done_is_last env s). reflexivity.
Defined.

(** ** What the host callback does, and when *)

(** X4.  On the path that defers completion the call ends by recording the
    definition event on the chosen stream (the stream that lines 114-121
    acquired), installing it, taking the reference on the input and only
    then handing the callback to the chosen stream.  The callback captures
    the master stream exactly when substreams are in use, and run by the
    stream it returns the chosen stream to that master first, releases the
    reference next and invokes [done] with success last. *)
Theorem host_callback_order (env : Env) (s : State) :
  host_callbacks s = [] ->
  count is_done (emitted env s) = 0 ->
  exists stream before,
    chosen_stream env s = Some stream /\
    emitted env s =
      before ++ [EvThenRecordEvent stream; EvResetDefinitionEvent stream;
                 EvTensorReference; EvThenDoHostCallback stream] /\
    host_callbacks (TpuDeviceToDeviceCopy env s) =
      [(stream,
        {| cb_device_to_device_master_stream :=
             if static_should_use_substream s
             then Some (device_to_device_stream_0 env) else None;
           cb_dst_device_to_device_stream := stream |})] /\
    completed env s =
      emitted env s
        ++ (if static_should_use_substream s
            then [EvReturnSubStream (device_to_device_stream_0 env) stream]
            else [])
        ++ [EvUnref; EvDone OK].
Proof.
  intros Hcb. unfold chosen_stream. enter s.
  all: intros H; blocks_in H.
  all: match goal with
       | |- exists stream before,
           _ /\ ?I ++ ?e1 :: ?e2 :: ?e3 :: ?e4 :: ?e5 :: ?W ++ ?M ++ ?T
              ++ [?i; EvThenRecordEvent ?st; _; _; _] = _ /\ _ =>
           exists st, (I ++ e1 :: e2 :: e3 :: e4 :: e5 :: W ++ M ++ T ++ [i])
       end.
  all: split; [reflexivity|].
  all: split; [flatten; reflexivity|]; split; [reflexivity|].
  all: flatten; reflexivity.
Qed.

Lemma host_callback_order_witness :
  let env := Examples.env true false true false Examples.float1024 4096 4096 in
  let s := Examples.start true (Examples.declared DT_FLOAT [1024%N]) in
  host_callbacks s = [] /\
  count is_done (emitted env s) = 0 /\
  exists stream before,
    chosen_stream env s = Some stream /\
    emitted env s =
      before ++ [EvThenRecordEvent stream; EvResetDefinitionEvent stream;
                 EvTensorReference; EvThenDoHostCallback stream] /\
    host_callbacks (TpuDeviceToDeviceCopy env s) =
      [(stream,
        {| cb_device_to_device_master_stream :=
             if static_should_use_substream s
             then Some (device_to_device_stream_0 env) else None;
           cb_dst_device_to_device_stream := stream |})] /\
    completed env s =
      emitted env s
        ++ (if static_should_use_substream s
            then [EvReturnSubStream (device_to_device_stream_0 env) stream]
            else [])
        ++ [EvUnref; EvDone OK].
Proof.
  intros env s. split; [reflexivity|]. split; [reflexivity|].
  apply (@host_callback_order env s); reflexivity.
Defined.

(** ** The substream flag *)

Lemma static_after_call (env : Env) (s : State) :
  should_use_substream (TpuDeviceToDeviceCopy env s)
  = Some (static_should_use_substream s).
Proof. enter s; reflexivity. Qed.

(** Registering the flag again touches one field of the state; every step
    of the copy leaves that field alone and does not look at it. *)
Section FlagIndependence.

Variable b : bool.

#[local] Abbreviation commutes := (commutes b).

Lemma commutes_ret {A : Type} (a : A) : commutes (ret a).
Proof. now intros s. Qed.

Lemma commutes_return {A : Type} (st : Status) : commutes (@return_ A st).
Proof. now intros s. Qed.

Lemma commutes_bind {A B : Type} (m : M A) (k : A -> M B) :
  commutes m -> (forall a, commutes (k a)) -> commutes (bind m k).
Proof.
  intros Hm Hk s. unfold bind. rewrite Hm.
  destruct (m s) as [a s'|st s']; simpl; [apply Hk | reflexivity].
Qed.

Lemma commutes_call (e : Event) : commutes (call e).
Proof. now intros s. Qed.

Lemma commutes_modify (f : State -> State) :
  (forall s, f (RegisterTpuNodeDevice b s) = RegisterTpuNodeDevice b (f s)) ->
  commutes (modify f).
Proof. intros Hf s. unfold modify. simpl. now rewrite Hf. Qed.

Lemma commutes_get_output : commutes (get output).
Proof. now intros s. Qed.

Lemma commutes_when (c : bool) (m : M unit) : commutes m -> commutes (when c m).
Proof. destruct c; simpl; auto using commutes_ret. Qed.

(** One step of a proof that a computation commutes. *)
Ltac commute :=
  first [ apply commutes_bind; [|intros]
        | apply commutes_ret
        | apply commutes_return
        | apply commutes_call
        | apply commutes_get_output
        | apply commutes_when
        | apply commutes_modify; intros; reflexivity
        | assumption
        | match goal with
          | |- context [match ?x with _ => _ end] => destruct x
          end ].

Lemma commutes_copy_leaves (env : Env) (stream : Stream) (dst : ShapedBuffer)
      (ls : list (ShapeIndex * DeviceMemoryBase)) :
  commutes (copy_leaves env stream dst ls).
Proof.
  induction ls as [|[index leaf] ls IH]; simpl.
  - apply commutes_ret.
  - unfold TF_RET_CHECK, TF_RETURN_IF_ERROR. repeat commute.
Qed.

Lemma commutes_impl (env : Env) (use : bool) : commutes (impl env use).
Proof.
  unfold impl, check_initialized, CheckIfTPUInitialized, assign_output,
    acquire_stream, AllocateShapedBuffer_output, wait_for_destination,
    write_tuple_index_tables, ResetDefinitionEvent, TensorReference,
    ThenDoHostCallback, done, TF_RET_CHECK, TF_RET_CHECK_nonnull,
    TF_RETURN_IF_ERROR, TF_ASSIGN_OR_RETURN.
  repeat (commute || apply commutes_copy_leaves).
Qed.

Lemma register_after_static (env : Env) (u : bool) (s : State) :
  should_use_substream s = Some u ->
  TpuDeviceToDeviceCopy env (RegisterTpuNodeDevice b s)
  = RegisterTpuNodeDevice b (TpuDeviceToDeviceCopy env s).
Proof.
  intros Hs. unfold TpuDeviceToDeviceCopy, static_should_use_substream.
  cbn [RegisterTpuNodeDevice should_use_substream]. rewrite Hs.
  unfold call_impl.
  change (set_return_substream None
            (set_should_use_substream (Some u) (RegisterTpuNodeDevice b s)))
    with (RegisterTpuNodeDevice b
            (set_return_substream None (set_should_use_substream (Some u) s))).
  rewrite commutes_impl.
  match goal with
  | |- context [impl env u ?x] => generalize (impl env u x)
  end.
  intros [[] [f su o rc [[[m|] d]|] cbs tr] | [|c msg] [f su o rc [[[m|] d]|] cbs tr]];
    reflexivity.
Qed.

End FlagIndependence.

(** X1.  The substream flag is read by the first call only.  The first call
    fixes the function's static, so registering the device again with
    another flag value between two calls changes nothing of what the later
    call does: it uses substreams exactly as the first one did and adds the
    same events to the trace. *)
Theorem flag_read_by_first_call_only (env env' : Env) (b : bool) (s : State) :
  static_should_use_substream (RegisterTpuNodeDevice b (TpuDeviceToDeviceCopy env s))
  = static_should_use_substream s /\
  emitted env' (RegisterTpuNodeDevice b (TpuDeviceToDeviceCopy env s))
  = emitted env' (TpuDeviceToDeviceCopy env s) /\
  TpuDeviceToDeviceCopy env' (RegisterTpuNodeDevice b (TpuDeviceToDeviceCopy env s))
  = RegisterTpuNodeDevice b (TpuDeviceToDeviceCopy env' (TpuDeviceToDeviceCopy env s)).
Proof.
  pose proof (static_after_call env s) as Hs.
  generalize dependent (TpuDeviceToDeviceCopy env s). intros s1 Hs.
  pose proof (@register_after_static b env' _ s1 Hs) as Hr.
  split; [|split].
  - unfold static_should_use_substream.
    cbn [RegisterTpuNodeDevice should_use_substream]. now rewrite Hs.
  - unfold emitted. rewrite Hr.
    cbn [RegisterTpuNodeDevice trace]. reflexivity.
  - exact Hr.
Qed.

(** X2.  Without substreams (the static is false) a transfer never asks a
    master stream for a substream and never returns one, neither in the
    call nor in its callback; with substreams it never asks the device
    context for its device-to-device stream. *)
Theorem pooling_decides_the_stream (env : Env) (s : State) :
  host_callbacks s = [] ->
  (static_should_use_substream s = false ->
   none is_get_or_create_substream (completed env s) /\
   none is_return_substream (completed env s)) /\
  (static_should_use_substream s = true ->
   none is_get_device_to_device_stream (completed env s)).
Proof.
  intros Hcb. unfold none. enter s.
  all: split; intros Hu; try discriminate Hu; repeat split; solve [blocks].
Qed.

Lemma pooling_decides_the_stream_witness :
  let env := Examples.env true false true false Examples.float1024 4096 4096 in
  let s := Examples.start false (Examples.declared DT_FLOAT [1024%N]) in
  host_callbacks s = [] /\
  static_should_use_substream s = false /\
  none is_get_or_create_substream (completed env s) /\
  none is_return_substream (completed env s).
Proof.
  intros env s. split; [reflexivity|]. split; [reflexivity|].
  apply (proj1 (@pooling_decides_the_stream env s eq_refl)). reflexivity.
Defined.

(** ** The initialization check *)

(** X12.  A transfer inside one device never asks the platform whether it
    is initialised, so the initialisation check cannot stop it; a transfer
    between two devices asks it once, before anything else. *)
Theorem platform_asked_between_devices_only (env : Env) (s : State) :
  (src_name env = dst_name env ->
   none is_initialized_query (emitted env s) /\
   initialization_fails env = false) /\
  (src_name env <> dst_name env ->
   exists rest,
     emitted env s = EvInitialized (platform_Initialized env) :: rest /\
     none is_initialized_query rest).
Proof.
  unfold none. split; intros Hn.
  - apply String.eqb_eq in Hn.
    assert (Hf : initialization_fails env = false)
      by (unfold initialization_fails; now rewrite Hn).
    split; [|exact Hf]. enter s.
    all: unfold init_events; rewrite Hn; solve [blocks].
  - apply String.eqb_neq in Hn. enter s.
    all: unfold init_events; rewrite Hn; cbn [app].
    all: eexists; split; [reflexivity|]; solve [blocks].
Qed.

Lemma platform_asked_between_devices_only_witness :
  let env := Examples.env false false true false Examples.float1024 4096 4096 in
  let s := Examples.start true (Examples.declared DT_FLOAT [1024%N]) in
  src_name env <> dst_name env /\
  exists rest,
    emitted env s = EvInitialized (platform_Initialized env) :: rest /\
    none is_initialized_query rest.
Proof.
  intros env s.
  assert (H : src_name env <> dst_name env) by discriminate.
  split; [exact H|].
  exact (proj2 (@platform_asked_between_devices_only env s) H).
Defined.

(** ** The output tensor *)

(** After a walk that looked at the output tensor: what is known about its
    XLA tensor is brought together. *)
Ltac tensors :=
  cbn [FromTensor dtype shape shaped_buffer definition_event] in *;
  repeat match goal with
         | E : Some _ = Some _ |- _ => injection E as E; try subst
         end;
  match goal with
  | E : xla_output_unallocated ?o = true, F : FromTensor ?o = _ |- _ =>
      unfold xla_output_unallocated, has_shaped_buffer in E; rewrite F in E;
      unfold xla_shaped_buffer, xla_definition_event; rewrite ?F;
      try discriminate E
  end;
  repeat match goal with
         | x : XlaTensor |- _ => destruct x as [[?sb|] ?ev]
         end;
  cbn [FromTensor dtype shape shaped_buffer definition_event negb] in *;
  try discriminate.

(** X10.  As long as no destination buffer has been allocated and the
    same-location shortcut has not been taken, the call leaves the output
    tensor exactly as it found it. *)
Theorem output_untouched_before_allocation (env : Env) (s : State) :
  count is_allocated (emitted env s) = 0 ->
  count reports_same_location (emitted env s) = 0 ->
  output (TpuDeviceToDeviceCopy env s) = output s.
Proof.
  enter s.
  all: intros H H'; blocks_in H; blocks_in H'; reflexivity.
Qed.

Lemma output_untouched_before_allocation_witness :
  let env := Examples.env true false true false
               (Examples.bare DT_FLOAT [1024%N]) 4096 4096 in
  let s := Examples.start true (Examples.declared DT_FLOAT [1024%N]) in
  count is_allocated (emitted env s) = 0 /\
  count reports_same_location (emitted env s) = 0 /\
  output (TpuDeviceToDeviceCopy env s) = output s.
Proof.
  intros env s. split; [reflexivity|]. split; [reflexivity|].
  apply (@output_untouched_before_allocation env s); reflexivity.
Defined.

(** X9.  When the call records the definition event, the output tensor
    keeps its type and shape, owns the buffer the allocator handed out and
    has the chosen stream (the stream that lines 114-121 acquired) as the
    stream of its definition event; the host callback waits on that same
    stream. *)
Theorem output_defined_on_success (env : Env) (s : State) (sh : XlaShape)
        (dst : ShapedBuffer) :
  shape_representation_fn env (shape (input env)) (dtype (input env)) false = Value sh ->
  AllocateShapedBuffer env (dtype (input env)) sh (dst_device_ordinal env) = Value dst ->
  count is_then_record_event (emitted env s) = 1 ->
  exists stream cb,
    chosen_stream env s = Some stream /\
    output (TpuDeviceToDeviceCopy env s) =
      {| dtype := dtype (output s); shape := shape (output s);
         FromTensor := Some {| shaped_buffer := Some dst;
                               definition_event := Some stream |} |} /\
    host_callbacks (TpuDeviceToDeviceCopy env s) = host_callbacks s ++ [(stream, cb)] /\
    xla_shaped_buffer (output s) = None.
Proof.
  intros Hsh Hal. unfold chosen_stream. enter s.
  all: intros H; blocks_in H.
  all: tensors.
  all: do 2 eexists; split; [reflexivity|].
  all: split; [reflexivity|]; split; reflexivity.
Qed.

Lemma output_defined_on_success_witness :
  let env := Examples.env true false true false Examples.float1024 4096 4096 in
  let s := Examples.start true (Examples.declared DT_FLOAT [1024%N]) in
  let sh := ArrayShape DT_FLOAT [1024%N] in
  let dst := Examples.allocated sh 4096 4096 in
  shape_representation_fn env (shape (input env)) (dtype (input env)) false = Value sh /\
  AllocateShapedBuffer env (dtype (input env)) sh (dst_device_ordinal env) = Value dst /\
  count is_then_record_event (emitted env s) = 1 /\
  exists stream cb,
    chosen_stream env s = Some stream /\
    output (TpuDeviceToDeviceCopy env s) =
      {| dtype := dtype (output s); shape := shape (output s);
         FromTensor := Some {| shaped_buffer := Some dst;
                               definition_event := Some stream |} |} /\
    host_callbacks (TpuDeviceToDeviceCopy env s) = host_callbacks s ++ [(stream, cb)] /\
    xla_shaped_buffer (output s) = None.
Proof.
  intros env s sh dst. do 3 (split; [reflexivity|]).
  apply (@output_defined_on_success env s sh dst); reflexivity.
Defined.

(** X13.  When the destination buffer has been allocated and the call ends
    without recording a definition event, the output tensor owns the new
    buffer but its definition event is the one it had: a failed transfer
    never marks the destination as defined. *)
Theorem failed_transfer_leaves_output_undefined (env : Env) (s : State)
        (sh : XlaShape) (dst : ShapedBuffer) :
  shape_representation_fn env (shape (input env)) (dtype (input env)) false = Value sh ->
  AllocateShapedBuffer env (dtype (input env)) sh (dst_device_ordinal env) = Value dst ->
  count is_allocated (emitted env s) = 1 ->
  count is_then_record_event (emitted env s) = 0 ->
  xla_shaped_buffer (output (TpuDeviceToDeviceCopy env s)) = Some dst /\
  xla_definition_event (output (TpuDeviceToDeviceCopy env s))
  = xla_definition_event (output s) /\
  count is_done (emitted env s) = 1 /\
  count is_done_ok (emitted env s) = 0 /\
  none is_host_callback (emitted env s).
Proof.
  intros Hsh Hal. unfold none. enter s.
  all: intros H H'; blocks_in H; blocks_in H'.
  all: tensors.
  all: split; [reflexivity|]; split; [reflexivity|].
  all: split; [solve [blocks]|]; split; solve [blocks].
Qed.

Lemma failed_transfer_leaves_output_undefined_witness :
  let env := Examples.env true false true true Examples.pair1024 4096 8 in
  let s := Examples.start true (Examples.declared DT_FLOAT [1024%N]) in
  let sh := TupleShape [ArrayShape DT_FLOAT [1024%N]; ArrayShape DT_FLOAT [1024%N]] in
  let dst := Examples.allocated sh 4096 8 in
  shape_representation_fn env (shape (input env)) (dtype (input env)) false = Value sh /\
  AllocateShapedBuffer env (dtype (input env)) sh (dst_device_ordinal env) = Value dst /\
  count is_allocated (emitted env s) = 1 /\
  count is_then_record_event (emitted env s) = 0 /\
  xla_shaped_buffer (output (TpuDeviceToDeviceCopy env s)) = Some dst /\
  xla_definition_event (output (TpuDeviceToDeviceCopy env s))
  = xla_definition_event (output s) /\
  count is_done (emitted env s) = 1 /\
  count is_done_ok (emitted env s) = 0 /\
  none is_host_callback (emitted env s).
Proof.
  intros env s sh dst. do 4 (split; [reflexivity|]).
  apply (@failed_transfer_leaves_output_undefined env s sh dst); reflexivity.
Defined.

(** ** Failures of the collaborators *)

(** X5.  When the allocation of the destination buffer fails, the status of
    the allocator is what [done] receives, unchanged, as the last event of
    the call; no command has been put on any stream, the output tensor is
    as it was, no callback is pending, and a substream that was checked out
    has been returned. *)
Theorem allocation_failure_delivered (env : Env) (s : State) (sh : XlaShape)
        (c : error.Code) (m : string) :
  shape_representation_fn env (shape (input env)) (dtype (input env)) false = Value sh ->
  AllocateShapedBuffer env (dtype (input env)) sh (dst_device_ordinal env)
  = Failure c m ->
  count is_allocation (emitted env s) = 1 ->
  (exists before, emitted env s = before ++ [EvDone (Error c m)]) /\
  count is_done (emitted env s) = 1 /\
  none is_stream_command (emitted env s) /\
  count is_return_substream (emitted env s)
  = count is_substream_checkout (emitted env s) /\
  output (TpuDeviceToDeviceCopy env s) = output s /\
  host_callbacks (TpuDeviceToDeviceCopy env s) = host_callbacks s.
Proof.
  intros Hsh Hal. unfold none. enter s.
  all: intros H; blocks_in H.
  all: split; [ends|].
  all: split; [solve [blocks]|]; split; [solve [blocks]|].
  all: split; [solve [blocks]|]; split; reflexivity.
Qed.

Lemma allocation_failure_delivered_witness :
  let env := Failures.env Failures.pair Failures.out_of_memory
               (EnqueueOnTpuDeviceSendRecvLocal Failures.pair)
               (WriteTupleIndexTablesAsync Failures.pair) true in
  let s := Failures.start in
  count is_allocation (emitted env s) = 1 /\
  (exists before,
      emitted env s
      = before ++ [EvDone (Error error.RESOURCE_EXHAUSTED "out of device memory")]) /\
  count is_done (emitted env s) = 1 /\
  none is_stream_command (emitted env s) /\
  count is_return_substream (emitted env s)
  = count is_substream_checkout (emitted env s) /\
  output (TpuDeviceToDeviceCopy env s) = output s /\
  host_callbacks (TpuDeviceToDeviceCopy env s) = host_callbacks s.
Proof.
  intros env s. split; [reflexivity|].
  apply (@allocation_failure_delivered env s Failures.sh
           error.RESOURCE_EXHAUSTED "out of device memory"); reflexivity.
Defined.

(** X8.  When the new definition event cannot be initialised, the call ends
    with an internal error for [done] as its last event: the event is not
    recorded on the stream and not installed in the output, no reference is
    taken on the input, no host callback is enqueued, and a substream that
    was checked out has been returned. *)
Theorem event_init_failure (env : Env) (s : State) :
  definition_event_Init env = false ->
  count is_event_init (emitted env s) = 1 ->
  (exists before,
      emitted env s
      = before ++ [EvDone (RetCheckFailure 209 "definition_event->Init()"
                             "Event failed to initialize!")]) /\
  count is_done (emitted env s) = 1 /\
  none is_record_event (emitted env s) /\
  none is_reference (emitted env s) /\
  none is_host_callback (emitted env s) /\
  count is_return_substream (emitted env s)
  = count is_substream_checkout (emitted env s) /\
  input_refcount (TpuDeviceToDeviceCopy env s) = input_refcount s /\
  host_callbacks (TpuDeviceToDeviceCopy env s) = host_callbacks s.
Proof.
  intros Hinit. unfold none. enter s.
  all: intros H; blocks_in H.
  all: split; [ends|].
  all: do 5 (split; [solve [blocks]|]); split; reflexivity.
Qed.

Lemma event_init_failure_witness :
  let env := Failures.env Failures.pair (AllocateShapedBuffer Failures.pair)
               (EnqueueOnTpuDeviceSendRecvLocal Failures.pair)
               (WriteTupleIndexTablesAsync Failures.pair) false in
  let s := Failures.start in
  definition_event_Init env = false /\
  count is_event_init (emitted env s) = 1 /\
  (exists before,
      emitted env s
      = before ++ [EvDone (RetCheckFailure 209 "definition_event->Init()"
                             "Event failed to initialize!")]) /\
  count is_done (emitted env s) = 1 /\
  none is_record_event (emitted env s) /\
  none is_reference (emitted env s) /\
  none is_host_callback (emitted env s) /\
  count is_return_substream (emitted env s)
  = count is_substream_checkout (emitted env s) /\
  input_refcount (TpuDeviceToDeviceCopy env s) = input_refcount s /\
  host_callbacks (TpuDeviceToDeviceCopy env s) = host_callbacks s.
Proof.
  intros env s. split; [reflexivity|]. split; [reflexivity|].
  apply (@event_init_failure env s); reflexivity.
Defined.

(** ** The leaf copies *)

Lemma ok_is_OK (st : Status) : ok st = true -> st = OK.
Proof. destruct st; [reflexivity | discriminate]. Qed.

Lemma count_enqueued_copies (env : Env) (stream : Stream) (dst : ShapedBuffer)
      (ls : list (ShapeIndex * DeviceMemoryBase)) :
  forallb (copies env stream dst) ls = true ->
  count is_enqueued (map (leaf_copy env stream dst) ls) = List.length ls.
Proof.
  induction ls as [|l ls IH]; [reflexivity|].
  simpl. intros H. apply andb_true_iff in H as [Hl Hls].
  unfold copies in Hl. apply andb_true_iff in Hl as [_ Hok].
  rewrite count_cons, (IH Hls). unfold leaf_copy at 1.
  now rewrite (ok_is_OK _ Hok).
Qed.

Lemma filter_nothing (p : Event -> bool) (l : list Event) :
  count p l = 0 -> filter p l = [].
Proof. unfold count. now destruct (filter p l). Qed.

Lemma filter_leaf_copies (env : Env) (stream : Stream) (dst : ShapedBuffer)
      (ls : list (ShapeIndex * DeviceMemoryBase)) :
  filter is_leaf_copy (map (leaf_copy env stream dst) ls)
  = map (leaf_copy env stream dst) ls.
Proof. induction ls as [|l ls IH]; simpl; [reflexivity | now rewrite IH]. Qed.

(** X11.  On the path that defers completion the leaf copies of the call
    are all on the chosen stream (the stream that lines 114-121 acquired)
    and are those of the leaves of the source buffer, each to the
    destination region at the same index, in the iteration order of the
    source's leaves, one copy per leaf, every one accepted by the stream
    and between regions of equal size; that stream waited for the
    definition event of the source. *)
Theorem leaf_copies_in_order (env : Env) (s : State) (src : ShapedBuffer)
        (sh : XlaShape) (dst : ShapedBuffer) :
  xla_shaped_buffer (input env) = Some src ->
  shape_representation_fn env (shape (input env)) (dtype (input env)) false = Value sh ->
  AllocateShapedBuffer env (dtype (input env)) sh (dst_device_ordinal env) = Value dst ->
  count is_host_callback (emitted env s) = 1 ->
  exists stream,
    chosen_stream env s = Some stream /\
    filter is_leaf_copy (emitted env s)
    = map (fun leaf =>
             EvEnqueueOnTpuDeviceSendRecvLocal stream (snd leaf)
               (buffer dst (fst leaf)) OK)
          (leaves src) /\
    forallb (same_size dst) (leaves src) = true /\
    count (waits_for_source stream) (emitted env s) = 1.
Proof.
  intros Hin Hsh Hal. unfold chosen_stream. enter s.
  all: intros H; blocks_in H.
  all: match goal with
       | E : forallb (copies _ ?st _) _ = true |- _ =>
           exists st;
           assert (Hsame : forall leaf, In leaf (leaves src) ->
                     same_size dst leaf = true /\
                     EnqueueOnTpuDeviceSendRecvLocal env st (snd leaf)
                       (buffer dst (fst leaf)) = OK)
             by (intros leaf Hleaf; rewrite forallb_forall in E;
                 specialize (E leaf Hleaf); unfold copies in E;
                 apply andb_true_iff in E as [Hsz Hok];
                 split; [exact Hsz | now apply ok_is_OK])
       end.
  all: split; [reflexivity|].
  all: split; [|split].
  all: try solve [tally; cbn; now rewrite Nat.eqb_refl].
  all: try solve [apply forallb_forall; intros leaf Hleaf;
                  now apply Hsame].
  all: rewrite !filter_app; cbn [filter is_leaf_copy app];
    rewrite !filter_app, filter_leaf_copies;
    rewrite !filter_nothing by solve [blocks];
    cbn [filter is_leaf_copy app]; rewrite app_nil_r;
    apply map_ext_in; intros leaf Hleaf; unfold leaf_copy;
    now rewrite (proj2 (Hsame leaf Hleaf)).
Qed.

Lemma leaf_copies_in_order_witness :
  let env := Examples.env true false false true Examples.pair1024 4096 4096 in
  let s := Examples.start true (Examples.declared DT_FLOAT [1024%N]) in
  let src := {| on_device_shape := ArrayShape DT_FLOAT [1024%N];
                leaves := [([0], Examples.mem 4096 4096);
                           ([1], Examples.mem 16384 4096)];
                buffer := fun _ => Examples.mem 4096 4096 |} in
  let sh := TupleShape [ArrayShape DT_FLOAT [1024%N]; ArrayShape DT_FLOAT [1024%N]] in
  let dst := Examples.allocated sh 4096 4096 in
  xla_shaped_buffer (input env) = Some src /\
  count is_host_callback (emitted env s) = 1 /\
  exists stream,
    chosen_stream env s = Some stream /\
    filter is_leaf_copy (emitted env s)
    = map (fun leaf =>
             EvEnqueueOnTpuDeviceSendRecvLocal stream (snd leaf)
               (buffer dst (fst leaf)) OK)
          (leaves src) /\
    forallb (same_size dst) (leaves src) = true /\
    count (waits_for_source stream) (emitted env s) = 1.
Proof.
  intros env s src sh dst. split; [reflexivity|]. split; [reflexivity|].
  apply (@leaf_copies_in_order env s src sh dst); reflexivity.
Defined.

(** X6.  When the stream refuses the copy of a leaf, the leaves before it
    having been enqueued, the status of the stream is what [done] receives,
    unchanged, as the last event of the call: the copies accepted are
    exactly those of the earlier leaves, no later leaf is tried, no index
    table is written and no definition event is recorded. *)
Theorem enqueue_failure_delivered (env : Env) (s : State)
        (src : ShapedBuffer) (sh : XlaShape) (dst : ShapedBuffer) (stream : Stream)
        (pre post : list (ShapeIndex * DeviceMemoryBase))
        (leaf : ShapeIndex * DeviceMemoryBase) :
  xla_shaped_buffer (input env) = Some src ->
  shape_representation_fn env (shape (input env)) (dtype (input env)) false = Value sh ->
  AllocateShapedBuffer env (dtype (input env)) sh (dst_device_ordinal env) = Value dst ->
  leaves src = pre ++ leaf :: post ->
  forallb (copies env stream dst) pre = true ->
  same_size dst leaf = true ->
  ok (EnqueueOnTpuDeviceSendRecvLocal env stream (snd leaf) (buffer dst (fst leaf)))
  = false ->
  count (waits_for_source stream) (emitted env s) = 1 ->
  (exists before,
      emitted env s
      = before ++ [EvDone (EnqueueOnTpuDeviceSendRecvLocal env stream (snd leaf)
                             (buffer dst (fst leaf)))]) /\
  count is_enqueued (emitted env s) = List.length pre /\
  count is_leaf_copy (emitted env s) = S (List.length pre) /\
  none is_index_table_write (emitted env s) /\
  none is_record_event (emitted env s) /\
  count is_done (emitted env s) = 1 /\
  host_callbacks (TpuDeviceToDeviceCopy env s) = host_callbacks s.
Proof.
  intros Hin Hsh Hal Hls Hpre Hsize Hfail.
  assert (Hleaf : copies env stream dst leaf = false)
    by (unfold copies; rewrite Hsize, Hfail; reflexivity).
  unfold none. enter s.
  all: intros H; blocks_in H.
  all: match type of H with
       | context [Nat.eqb ?a ?b] =>
           destruct (Nat.eqb_spec a b); [subst; clear H | discriminate H]
       end.
  all: try match goal with
           | E : forallb _ (leaves _) = true |- _ =>
               rewrite Hls, not_all_copy in E by exact Hleaf; discriminate E
           end.
  all: match goal with
       | E : leaves _ = ?p ++ ?l :: ?q, Ep : forallb _ ?p = true,
         El : copies _ _ _ ?l = false |- _ =>
           rewrite Hls in E;
           destruct (first_failure_unique _ _ _ _ _ _ _ _ _ E Hpre Hleaf Ep El)
             as (<- & <- & <-);
           clear E Ep El
       end.
  all: match goal with
       | E : leaf_failure _ _ _ _ = _ |- _ => rewrite <- E; clear E
       end.
  all: unfold attempted, leaf_failure; rewrite Hsize; cbn [app].
  all: split; [ends|].
  all: split;
    [ tally; rewrite count_enqueued_copies by assumption; unfold leaf_copy;
      match goal with
      | E : ok ?st = false |- _ => destruct st; [discriminate E|]
      end;
      cbn; lia |].
  all: split; [tally; unfold leaf_copy; cbn; lia|].
  all: repeat (split; [solve [blocks]|]); reflexivity.
Qed.

Lemma enqueue_failure_delivered_witness :
  let env := Failures.env Failures.pair (AllocateShapedBuffer Failures.pair)
               Failures.refuse_second
               (WriteTupleIndexTablesAsync Failures.pair) true in
  let s := Failures.start in
  let pre := [([0], Examples.mem 4096 4096)] in
  let leaf := ([1], Examples.mem 16384 4096) in
  leaves Failures.src = pre ++ leaf :: [] /\
  forallb (copies env 4 Failures.dst) pre = true /\
  same_size Failures.dst leaf = true /\
  ok (EnqueueOnTpuDeviceSendRecvLocal env 4 (snd leaf)
        (buffer Failures.dst (fst leaf))) = false /\
  count (waits_for_source 4) (emitted env s) = 1 /\
  (exists before,
      emitted env s
      = before ++ [EvDone (EnqueueOnTpuDeviceSendRecvLocal env 4 (snd leaf)
                             (buffer Failures.dst (fst leaf)))]) /\
  count is_enqueued (emitted env s) = List.length pre /\
  count is_leaf_copy (emitted env s) = S (List.length pre) /\
  none is_index_table_write (emitted env s) /\
  none is_record_event (emitted env s) /\
  count is_done (emitted env s) = 1 /\
  host_callbacks (TpuDeviceToDeviceCopy env s) = host_callbacks s.
Proof.
  intros env s pre leaf. do 5 (split; [reflexivity|]).
  apply (@enqueue_failure_delivered env s Failures.src Failures.sh Failures.dst
           4 pre [] leaf); reflexivity.
Defined.

(** ** An event and what follows it *)

Lemma occurs_here (p : Event -> bool) (e : Event) (l : list Event) :
  count p l = 0 ->
  exists before after, e :: l = before ++ e :: after /\ count p after = 0.
Proof. intros H. now exists [], l. Qed.

Lemma occurs_cons (p : Event -> bool) (x e : Event) (l : list Event) :
  (exists before after, l = before ++ e :: after /\ count p after = 0) ->
  exists before after, x :: l = before ++ e :: after /\ count p after = 0.
Proof. intros (b & a & -> & H). now exists (x :: b), a. Qed.

Lemma occurs_app (p : Event -> bool) (a l : list Event) (e : Event) :
  (exists before after, l = before ++ e :: after /\ count p after = 0) ->
  exists before after, a ++ l = before ++ e :: after /\ count p after = 0.
Proof. intros (b & r & -> & H). exists (a ++ b), r. now rewrite app_assoc. Qed.

(** Finds an event in a trace written as blocks; what is left is the
    count over the events after it. *)
Ltac occurs :=
  repeat first [ apply occurs_here | apply occurs_app | apply occurs_cons ].

(** X7.  When the write of the index tables of a tuple-shaped destination
    fails, the status of the transfer manager is what [done] receives,
    unchanged, as the last event of the call.  Every leaf has been copied by
    then; the chosen stream is not made to wait for the host-to-device
    stream, no definition event is recorded, no reference is taken and no
    callback is enqueued. *)
Theorem index_table_failure_delivered (env : Env) (s : State)
        (src : ShapedBuffer) (sh : XlaShape) (dst : ShapedBuffer) :
  xla_shaped_buffer (input env) = Some src ->
  shape_representation_fn env (shape (input env)) (dtype (input env)) false = Value sh ->
  AllocateShapedBuffer env (dtype (input env)) sh (dst_device_ordinal env) = Value dst ->
  index_tables_fail env dst = true ->
  count is_index_table_write (emitted env s) = 1 ->
  (exists before,
      emitted env s
      = before ++ [EvDone (WriteTupleIndexTablesAsync env
                             (host_to_device_stream env) dst)]) /\
  (exists before after,
      emitted env s
      = before ++ EvWriteTupleIndexTablesAsync (host_to_device_stream env)
                    (WriteTupleIndexTablesAsync env (host_to_device_stream env) dst)
               :: after /\
      none is_stream_command after) /\
  count is_enqueued (emitted env s) = List.length (leaves src) /\
  none is_record_event (emitted env s) /\
  none is_reference (emitted env s) /\
  count is_done (emitted env s) = 1 /\
  host_callbacks (TpuDeviceToDeviceCopy env s) = host_callbacks s.
Proof.
  intros Hin Hsh Hal Hfail.
  assert (Htuple : IsTuple (on_device_shape dst) = true)
    by (unfold index_tables_fail in Hfail; now apply andb_true_iff in Hfail).
  unfold none. enter s.
  all: intros H; blocks_in H.
  all: unfold index_table_events; rewrite Htuple.
  all: match goal with
       | E : WriteTupleIndexTablesAsync _ _ _ = _ |- _ => rewrite E
       end; cbn [ok app].
  all: split; [ends|].
  all: split; [occurs; cbn; reflexivity|].
  all: split; [tally; rewrite count_enqueued_copies by assumption; cbn; lia|].
  all: repeat (split; [solve [blocks]|]); reflexivity.
Qed.

Lemma index_table_failure_delivered_witness :
  let env := Failures.env Failures.pair (AllocateShapedBuffer Failures.pair)
               (EnqueueOnTpuDeviceSendRecvLocal Failures.pair)
               Failures.write_fails true in
  let s := Failures.start in
  index_tables_fail env Failures.dst = true /\
  count is_index_table_write (emitted env s) = 1 /\
  (exists before,
      emitted env s
      = before ++ [EvDone (WriteTupleIndexTablesAsync env
                             (host_to_device_stream env) Failures.dst)]) /\
  (exists before after,
      emitted env s
      = before ++ EvWriteTupleIndexTablesAsync (host_to_device_stream env)
                    (WriteTupleIndexTablesAsync env (host_to_device_stream env)
                       Failures.dst)
               :: after /\
      none is_stream_command after) /\
  count is_enqueued (emitted env s) = List.length (leaves Failures.src) /\
  none is_record_event (emitted env s) /\
  none is_reference (emitted env s) /\
  count is_done (emitted env s) = 1 /\
  host_callbacks (TpuDeviceToDeviceCopy env s) = host_callbacks s.
Proof.
  intros env s. split; [reflexivity|]. split; [reflexivity|].
  apply (@index_table_failure_delivered env s Failures.src Failures.sh Failures.dst);
    reflexivity.
Defined.

(** * Properties of the device factory *)

(** ** Printing ordinals *)

Lemma append_nil_r (s : string) : (s ++ "")%string = s.
Proof. induction s as [|c s IH]; simpl; [reflexivity | now rewrite IH]. Qed.

Lemma append_inj_l (a b c : string) : (a ++ b)%string = (a ++ c)%string -> b = c.
Proof.
  induction a as [|x a IH]; simpl; [trivial|].
  intros H. injection H as H. now apply IH.
Qed.

Lemma to_int_nonnil (i : Z) :
  Z.to_int i <> Decimal.Pos Decimal.Nil /\ Z.to_int i <> Decimal.Neg Decimal.Nil.
Proof.
  destruct i as [|p|p]; simpl; split; try discriminate;
    intros H; injection H as H; now apply (Unsigned.to_uint_nonnil p).
Qed.

Lemma Piece_Int_inj (i j : Z) :
  Factory.Piece (Factory.Int i) = Factory.Piece (Factory.Int j) -> i = j.
Proof.
  simpl. intros H. apply DecimalZ.to_int_inj.
  destruct (to_int_nonnil i) as [Hi Hi'], (to_int_nonnil j) as [Hj Hj'].
  pose proof (NilZero.isi _ Hi Hi') as Ei.
  pose proof (NilZero.isi _ Hj Hj') as Ej.
  rewrite H in Ei. rewrite Ei in Ej. now injection Ej.
Qed.

Lemma Piece_of_nat (k : nat) :
  Factory.Piece (Factory.Int (Z.of_nat k)) = decimal (N.of_nat k).
Proof. unfold decimal. destruct k; reflexivity. Qed.

(** ** The ordinals of a loop *)

Lemma ordinals_length (n : nat) (i : Z) : List.length (Factory.ordinals n i) = n.
Proof. revert i. induction n as [|n IH]; intros i; simpl; [reflexivity | now rewrite IH]. Qed.

Lemma ordinals_In (n : nat) (i j : Z) :
  In j (Factory.ordinals n i) <-> (i <= j < i + Z.of_nat n)%Z.
Proof.
  revert i. induction n as [|n IH]; intros i; simpl; [lia|].
  rewrite IH. lia.
Qed.

Lemma ordinals_NoDup (n : nat) (i : Z) : NoDup (Factory.ordinals n i).
Proof.
  revert i. induction n as [|n IH]; intros i; simpl; constructor; [|apply IH].
  rewrite ordinals_In. lia.
Qed.

Lemma ordinals_nth (n : nat) (i : Z) (k : nat) (j : Z) :
  nth_error (Factory.ordinals n i) k = Some j -> j = (i + Z.of_nat k)%Z.
Proof.
  revert i k. induction n as [|n IH]; intros i [|k]; simpl; try discriminate.
  - intros H. injection H as <-. lia.
  - intros H. apply IH in H. lia.
Qed.

Lemma ordinals_snoc (n : nat) (i : Z) :
  Factory.ordinals (S n) i = Factory.ordinals n i ++ [(i + Z.of_nat n)%Z].
Proof.
  revert i. induction n as [|n IH]; intros i.
  - simpl. f_equal. lia.
  - change (Factory.ordinals (S (S n)) i)
      with (i :: Factory.ordinals (S n) (i + 1)).
    rewrite IH. simpl. do 3 f_equal. lia.
Qed.

Lemma NoDup_map_injective (A B : Type) (f : A -> B) (l : list A) :
  (forall a b, f a = f b -> a = b) -> NoDup l -> NoDup (map f l).
Proof.
  intros Hf H. induction H as [|a l Ha _ IH]; simpl; constructor; [|exact IH].
  rewrite in_map_iff. intros (b & E & Hb). apply Hf in E. now subst b.
Qed.

(** ** The names of the physical devices *)

Lemma push_device_names_eq (n : nat) (i : Z) (devices : list string) :
  Factory.push_device_names n i devices
  = devices
    ++ map (fun j => Factory.StrCat [Factory.Str "/physical_device:TPU:"; Factory.Int j])
           (Factory.ordinals n i).
Proof.
  revert i devices. induction n as [|n IH]; intros i devices; simpl.
  - now rewrite app_nil_r.
  - rewrite IH, <- app_assoc. reflexivity.
Qed.

Lemma device_name_inj (i j : Z) :
  Factory.StrCat [Factory.Str "/physical_device:TPU:"; Factory.Int i]
  = Factory.StrCat [Factory.Str "/physical_device:TPU:"; Factory.Int j] ->
  i = j.
Proof.
  unfold Factory.StrCat, fold_right. rewrite !append_nil_r.
  intros H. apply append_inj_l in H. now apply Piece_Int_inj.
Qed.

(** X14.  [ListPhysicalDevices] never fails and never removes an entry: it
    appends one name per visible device of the registered platform (none
    when no platform is registered or the count is not positive), the name
    at position [k] being [/physical_device:TPU:] followed by [k] in
    decimal; the names it appends are pairwise different. *)
Theorem physical_device_names (env : Factory.Env) (devices : list string) :
  exists names,
    Factory.ListPhysicalDevices env devices = (OK, devices ++ names) /\
    List.length names
    = match Factory.GetRegisteredPlatform env with
      | Some platform => Z.to_nat (Factory.VisibleDeviceCount platform)
      | None => 0
      end /\
    (forall k name,
        nth_error names k = Some name ->
        name = ("/physical_device:TPU:" ++ decimal (N.of_nat k))%string) /\
    NoDup names.
Proof.
  unfold Factory.ListPhysicalDevices.
  destruct (Factory.GetRegisteredPlatform env) as [platform|].
  - rewrite push_device_names_eq. eexists. split; [reflexivity|].
    split; [now rewrite length_map, ordinals_length|].
    split.
    + intros k name H. rewrite nth_error_map in H.
      destruct (nth_error _ k) as [j|] eqn:E; [|discriminate].
      apply ordinals_nth in E. rewrite Z.add_0_l in E. subst j.
      injection H as <-. rewrite <- Piece_of_nat.
      unfold Factory.StrCat, fold_right. now rewrite append_nil_r.
    + apply NoDup_map_injective; [|apply ordinals_NoDup].
      intros i j. apply device_name_inj.
  - exists []. rewrite app_nil_r. repeat split; [|constructor].
    intros [|k] name H; discriminate H.
Qed.

(** ** The loop that creates the devices *)

Lemma since_app (p p' : Factory.Process) (new : list Factory.Call) :
  Factory.calls p' = Factory.calls p ++ new -> Factory.since p p' = new.
Proof.
  unfold Factory.since. intros ->.
  induction (Factory.calls p); simpl; auto.
Qed.

Lemma factory_count_app (f : Factory.Call -> bool) (a b : list Factory.Call) :
  Factory.count f (a ++ b) = Factory.count f a + Factory.count f b.
Proof. unfold Factory.count. now rewrite filter_app, length_app. Qed.

Lemma same_settings_refl (p : Factory.Process) : Factory.same_settings p p.
Proof. now repeat split. Qed.

Lemma same_settings_trans (p q r : Factory.Process) :
  Factory.same_settings p q -> Factory.same_settings q r ->
  Factory.same_settings p r.
Proof.
  unfold Factory.same_settings.
  intros (? & ? & ? & ? & ?) (? & ? & ? & ? & ?). repeat split; congruence.
Qed.

Lemma same_settings_record (c : Factory.Call) (p : Factory.Process) :
  Factory.same_settings p (Factory.call_made c p).
Proof. now repeat split. Qed.

Section Loop.

Variable env : Factory.Env.
Variable session_options : Factory.SessionOptions.
Variable name_prefix : string.
Variable platform : Factory.TpuPlatformInterface.

#[local] Abbreviation device i :=
  (Factory.make_unique session_options
     (Factory.device_options env platform name_prefix i)).
#[local] Abbreviation create_devices :=
  (Factory.create_devices env session_options name_prefix platform).
#[local] Abbreviation sets_up :=
  (Factory.sets_up env session_options name_prefix platform).
#[local] Abbreviation setup_calls :=
  (Factory.setup_calls env session_options name_prefix platform).

(** Whatever the collaborators answer, the loop changes no flag and no
    static, makes set-up calls only, and appends configured devices. *)
Lemma create_devices_frame (n : nat) (i : Z) (p : Factory.Process)
      (devices : list Factory.Device) :
  exists status p' new created,
    create_devices n i p devices = (status, p', devices ++ created) /\
    Factory.same_settings p p' /\
    Factory.calls p' = Factory.calls p ++ new /\
    forallb Factory.is_setup new = true /\
    Forall (fun d => exists j, d = Factory.configure p (device j)) created.
Proof.
  revert i p devices. induction n as [|n IH]; intros i p devices.
  - exists OK, p, [], []. rewrite !app_nil_r.
    repeat split; auto using same_settings_refl.
  - cbn [Factory.create_devices].
    destruct (ok (Factory.TpuNodeContext_Initialize env i)); cbn [negb].
    + destruct (ok (Factory.Device_UseGpuDeviceInfo env (device i))); cbn [negb].
      * match goal with
        | |- context [create_devices n ?j ?q ?ds] =>
            destruct (IH j q ds) as (st & p' & new & created & E & Hs & Hc & Hn & Hd)
        end.
        rewrite E. eexists st, p', (_ :: _ :: new), (_ :: created).
        split; [now rewrite <- app_assoc|].
        split; [exact Hs|].
        split; [rewrite Hc; cbn [Factory.call_made Factory.calls];
                now rewrite <- !app_assoc|].
        split; [exact Hn|].
        constructor; [now exists i | exact Hd].
      * eexists _, _, [_; _], []. rewrite app_nil_r.
        split; [reflexivity|]. split; [now repeat split|].
        split; [cbn [Factory.call_made Factory.calls]; now rewrite <- app_assoc|].
        split; [reflexivity | constructor].
    + eexists _, _, [_], []. rewrite app_nil_r.
      split; [reflexivity|]. split; [now repeat split|].
      split; [reflexivity|]. split; [reflexivity | constructor].
Qed.

(** With every ordinal set up, the loop runs to its end. *)
Lemma create_devices_all (n : nat) (i : Z) (p : Factory.Process)
      (devices : list Factory.Device) :
  (forall j, (i <= j < i + Z.of_nat n)%Z -> sets_up j = true) ->
  exists p',
    create_devices n i p devices
    = (OK, p',
       devices ++ map (fun j => Factory.configure p (device j)) (Factory.ordinals n i)) /\
    Factory.calls p'
    = Factory.calls p ++ flat_map setup_calls (Factory.ordinals n i).
Proof.
  revert i p devices. induction n as [|n IH]; intros i p devices Hall.
  - exists p. cbn. now rewrite !app_nil_r.
  - assert (Hi : sets_up i = true) by (apply Hall; lia).
    unfold Factory.sets_up in Hi. apply andb_true_iff in Hi as [Hinit Huse].
    cbn [Factory.create_devices Factory.ordinals map flat_map].
    unfold Factory.setup_calls at 1. rewrite Hinit, Huse. cbn [negb].
    match goal with
    | |- context [create_devices n ?j ?q ?ds] =>
        destruct (IH j q ds) as (p' & E & Hc); [intros; apply Hall; lia|]
    end.
    exists p'. rewrite E, Hc. cbn [Factory.call_made Factory.calls].
    rewrite <- !app_assoc. split; reflexivity.
Qed.

(** The loop stops at the first ordinal that is not set up. *)
Lemma create_devices_stops (k n : nat) (i : Z) (p : Factory.Process)
      (devices : list Factory.Device) :
  k < n ->
  (forall j, (i <= j < i + Z.of_nat k)%Z -> sets_up j = true) ->
  sets_up (i + Z.of_nat k) = false ->
  exists p',
    create_devices n i p devices
    = (Factory.setup_failure env session_options name_prefix platform
         (i + Z.of_nat k),
       p',
       devices ++ map (fun j => Factory.configure p (device j)) (Factory.ordinals k i)) /\
    Factory.calls p'
    = Factory.calls p ++ flat_map setup_calls (Factory.ordinals k i)
                      ++ setup_calls (i + Z.of_nat k).
Proof.
  revert n i p devices. induction k as [|k IH]; intros n i p devices Hk Hall Hbad.
  - destruct n as [|n]; [lia|]. rewrite Z.add_0_r in *.
    unfold Factory.sets_up in Hbad.
    cbn [Factory.create_devices Factory.ordinals map flat_map app].
    unfold Factory.setup_failure, Factory.setup_calls.
    destruct (ok (Factory.TpuNodeContext_Initialize env i)); cbn [negb andb] in *.
    + rewrite Hbad. cbn [negb]. eexists. split; [now rewrite app_nil_r|].
      cbn [Factory.call_made Factory.calls]. now rewrite <- app_assoc.
    + eexists. split; [now rewrite app_nil_r|]. reflexivity.
  - destruct n as [|n]; [lia|].
    assert (Hi : sets_up i = true) by (apply Hall; lia).
    unfold Factory.sets_up in Hi. apply andb_true_iff in Hi as [Hinit Huse].
    cbn [Factory.create_devices Factory.ordinals map flat_map].
    unfold Factory.setup_calls at 1. rewrite Hinit, Huse. cbn [negb].
    replace (i + Z.of_nat (S k))%Z with (i + 1 + Z.of_nat k)%Z in * by lia.
    match goal with
    | |- context [create_devices n ?j ?q ?ds] =>
        destruct (IH n j q ds) as (p' & E & Hc);
          [lia | intros; apply Hall; lia | exact Hbad |]
    end.
    exists p'. rewrite E, Hc. cbn [Factory.call_made Factory.calls].
    rewrite <- !app_assoc. split; reflexivity.
Qed.

End Loop.

(** ** Creating the devices *)

Lemma flat_map_agree (A B : Type) (f g : A -> list B) (l : list A) :
  (forall a, In a l -> f a = g a) -> flat_map f l = flat_map g l.
Proof.
  induction l as [|a l IH]; [reflexivity|]. intros H. simpl.
  rewrite (H a (or_introl eq_refl)). f_equal. apply IH.
  intros b Hb. apply H. now right.
Qed.

Lemma forallb_setup_count (f : Factory.Call -> bool) (l : list Factory.Call) :
  (forall c, Factory.is_setup c = true -> f c = false) ->
  forallb Factory.is_setup l = true -> Factory.count f l = 0.
Proof.
  intros Hf. unfold Factory.count. induction l as [|c l IH]; [reflexivity|].
  simpl. intros H. apply andb_true_iff in H as [Hc Hl].
  rewrite (Hf c Hc). now apply IH.
Qed.

Lemma filter_setup_calls (env : Factory.Env) (so : Factory.SessionOptions)
      (prefix : string) (platform : Factory.TpuPlatformInterface) (l : list Z) :
  filter Factory.is_setup (flat_map (Factory.setup_calls env so prefix platform) l)
  = flat_map (Factory.setup_calls env so prefix platform) l.
Proof.
  induction l as [|i l IH]; [reflexivity|].
  cbn [flat_map]. rewrite filter_app, IH. f_equal.
  unfold Factory.setup_calls.
  now destruct (ok (Factory.TpuNodeContext_Initialize env i)).
Qed.

Lemma count_initialize_setup_calls (env : Factory.Env) (so : Factory.SessionOptions)
      (prefix : string) (platform : Factory.TpuPlatformInterface) (l : list Z) :
  Factory.count Factory.is_initialize
    (flat_map (Factory.setup_calls env so prefix platform) l)
  = List.length l.
Proof.
  induction l as [|i l IH]; [reflexivity|].
  cbn [flat_map]. rewrite factory_count_app, IH.
  unfold Factory.setup_calls.
  now destruct (ok (Factory.TpuNodeContext_Initialize env i)).
Qed.

Lemma setup_calls_ordinal (env : Factory.Env) (so : Factory.SessionOptions)
      (prefix : string) (platform : Factory.TpuPlatformInterface)
      (l : list Z) (i : Z) (r : Status) :
  In (Factory.Initialize i r)
     (flat_map (Factory.setup_calls env so prefix platform) l) ->
  In i l.
Proof.
  rewrite in_flat_map. intros (j & Hj & H). unfold Factory.setup_calls in H.
  destruct H as [H|H]; [injection H as <- _; exact Hj|].
  destruct (ok (Factory.TpuNodeContext_Initialize env j)); [|destruct H].
  destruct H as [H|[]]. discriminate H.
Qed.

Lemma no_setup_no_initialize (l : list Factory.Call) :
  filter Factory.is_setup l = [] ->
  Factory.count Factory.is_initialize l = 0 /\
  forall i r, ~ In (Factory.Initialize i r) l.
Proof.
  induction l as [|c l IH]; [now split|].
  simpl. destruct (Factory.is_setup c) eqn:Ec; [discriminate|].
  intros H. destruct (IH H) as [Hn Hi]. split.
  - unfold Factory.count in *. simpl.
    destruct c; try discriminate Ec; exact Hn.
  - intros i r [Hc | Hl]; [subst c; discriminate Ec | exact (Hi i r Hl)].
Qed.

(** What [CreateDevices] does before its loop, on a host with a platform:
    the registrations, which leave the flags as they are. *)
Lemma CreateDevices_prepare (env : Factory.Env) (so : Factory.SessionOptions)
      (prefix : string) (p : Factory.Process) (devices : list Factory.Device)
      (platform : Factory.TpuPlatformInterface) :
  Factory.GetRegisteredPlatform env = Some platform ->
  exists p0 before after,
    Factory.CreateDevices env so prefix p devices
    = Factory.create_devices env so prefix platform
        (Z.to_nat (Factory.VisibleDeviceCount platform)) 0 p0 devices /\
    Factory.tpu_autoclustering_flag p0 = Factory.tpu_autoclustering_flag p /\
    Factory.tpu_xla_device_failure_closes_chips_flag p0
    = Factory.tpu_xla_device_failure_closes_chips_flag p /\
    Factory.copy p0 = Factory.copy p /\
    Factory.register_tpu_tpu_copy p0
    = Factory.register_tpu_tpu_copy p
      || Factory.ShouldRegisterTpuDeviceToDeviceCopy platform /\
    Factory.registrations p0 = true /\
    Factory.calls p0
    = Factory.calls p
      ++ before
      ++ Factory.RegisterCompilationDevice (Factory.DEVICE_TPU_NODE env)
           (Factory.registration env p)
      :: after /\
    before
    = (if Factory.ShouldRegisterTpuDeviceToDeviceCopy platform
          && negb (Factory.register_tpu_tpu_copy p)
       then [Factory.CopyTensor_Registration (Factory.DEVICE_TPU_NODE env)
               (Factory.DEVICE_TPU_NODE env)]
       else []) /\
    after
    = (if Factory.registrations p then []
       else [Factory.RegisterXlaDeviceKernels (Factory.DEVICE_TPU_NODE env)
               (Factory.DEVICE_TPU_XLA_JIT env)]).
Proof.
  intros Hp. unfold Factory.CreateDevices. rewrite Hp.
  eexists.
  exists (if Factory.ShouldRegisterTpuDeviceToDeviceCopy platform
             && negb (Factory.register_tpu_tpu_copy p)
          then [Factory.CopyTensor_Registration (Factory.DEVICE_TPU_NODE env)
                  (Factory.DEVICE_TPU_NODE env)]
          else []),
         (if Factory.registrations p then []
          else [Factory.RegisterXlaDeviceKernels (Factory.DEVICE_TPU_NODE env)
                  (Factory.DEVICE_TPU_XLA_JIT env)]).
  split; [reflexivity|].
  destruct p as [a c s copied registered cs].
  unfold Factory.RegisterTpuDeviceToDeviceCopy.
  destruct (Factory.ShouldRegisterTpuDeviceToDeviceCopy platform), copied, registered;
    cbn; rewrite <- ?app_assoc; repeat (split; [reflexivity|]); reflexivity.
Qed.

(** The registrations are no set-up calls. *)
Lemma prepare_no_setup (b c : bool) (x y z : Factory.Call) :
  Factory.is_setup x = false -> Factory.is_setup y = false ->
  Factory.is_setup z = false ->
  filter Factory.is_setup
    ((if b then [x] else []) ++ y :: (if c then [] else [z])) = [].
Proof. intros Hx Hy Hz. destruct b, c; simpl; now rewrite ?Hx, ?Hy, ?Hz. Qed.

(** X15.  On a host whose platform sets up every visible ordinal,
    [CreateDevices] succeeds and appends one device per ordinal, in ordinal
    order, after the devices already in the vector: each is built from the
    session options and the name prefix of the call, uses multiple
    streams, does not allow sync on completion, and closes the TPU host on
    a device error exactly when the flag says so.  Each ordinal is
    initialised before its device is asked for the device info, and the
    next ordinal only after that. *)
Theorem all_devices_created (env : Factory.Env) (so : Factory.SessionOptions)
        (prefix : string) (p : Factory.Process) (devices : list Factory.Device)
        (platform : Factory.TpuPlatformInterface) :
  Factory.GetRegisteredPlatform env = Some platform ->
  (forall i, (0 <= i < Factory.VisibleDeviceCount platform)%Z ->
             Factory.sets_up env so prefix platform i = true) ->
  exists p' created,
    Factory.CreateDevices env so prefix p devices = (OK, p', devices ++ created) /\
    List.length created = Z.to_nat (Factory.VisibleDeviceCount platform) /\
    (forall k d,
        nth_error created k = Some d ->
        Factory.session_options d = so /\
        Factory.XlaDevice.device_ordinal (Factory.options d) = Z.of_nat k /\
        Factory.XlaDevice.device_name_prefix (Factory.options d) = prefix /\
        Factory.XlaDevice.use_multiple_streams (Factory.options d) = true /\
        Factory.allows_sync_on_completion d = Some false /\
        Factory.handle_device_error_callback d
        = if Factory.tpu_xla_device_failure_closes_chips_flag p
          then Some Factory.CloseTpuHost else None) /\
    filter Factory.is_setup (Factory.since p p')
    = flat_map (fun i =>
                  [Factory.Initialize i OK;
                   Factory.UseGpuDeviceInfo
                     (Factory.make_unique so
                        (Factory.device_options env platform prefix i)) OK])
               (Factory.ordinals (Z.to_nat (Factory.VisibleDeviceCount platform)) 0).
Proof.
  intros Hp Hall.
  destruct (@CreateDevices_prepare env so prefix p devices platform Hp)
    as (p0 & before & after & -> & _ & Hflag & _ & _ & _ & Hcalls & -> & ->).
  destruct (@create_devices_all env so prefix platform
              (Z.to_nat (Factory.VisibleDeviceCount platform)) 0%Z p0 devices)
    as (p' & -> & Hc); [intros; apply Hall; lia|].
  exists p'. eexists. split; [reflexivity|].
  split; [now rewrite length_map, ordinals_length|].
  split.
  - intros k d H. rewrite nth_error_map in H.
    destruct (nth_error _ k) as [j|] eqn:E; [|discriminate].
    apply ordinals_nth in E. rewrite Z.add_0_l in E. subst j.
    injection H as <-. unfold Factory.configure. rewrite Hflag.
    destruct (Factory.tpu_xla_device_failure_closes_chips_flag p);
      repeat split; reflexivity.
  - rewrite Hcalls, <- app_assoc in Hc. rewrite (@since_app _ _ _ Hc).
    rewrite filter_app, filter_setup_calls, prepare_no_setup by reflexivity.
    cbn [app]. apply flat_map_agree. intros i Hi.
    apply ordinals_In in Hi.
    assert (Hs : Factory.sets_up env so prefix platform i = true)
      by (apply Hall; lia).
    unfold Factory.sets_up in Hs. apply andb_true_iff in Hs as [Hi1 Hi2].
    unfold Factory.setup_calls. rewrite Hi1.
    now rewrite (ok_is_OK _ Hi1), (ok_is_OK _ Hi2).
Qed.

Lemma all_devices_created_witness :
  let env := Factory.Hosts.healthy in
  let p := Factory.Hosts.start in
  exists p' created,
    Factory.CreateDevices env 7 "/job:worker" p [] = (OK, p', [] ++ created) /\
    List.length created = 4 /\
    (forall k d,
        nth_error created k = Some d ->
        Factory.session_options d = 7 /\
        Factory.XlaDevice.device_ordinal (Factory.options d) = Z.of_nat k /\
        Factory.XlaDevice.device_name_prefix (Factory.options d) = "/job:worker" /\
        Factory.XlaDevice.use_multiple_streams (Factory.options d) = true /\
        Factory.allows_sync_on_completion d = Some false /\
        Factory.handle_device_error_callback d = Some Factory.CloseTpuHost) /\
    filter Factory.is_setup (Factory.since p p')
    = flat_map (fun i =>
                  [Factory.Initialize i OK;
                   Factory.UseGpuDeviceInfo
                     (Factory.make_unique 7
                        (Factory.device_options env Factory.Hosts.platform
                           "/job:worker" i)) OK])
               (Factory.ordinals 4 0).
Proof.
  intros env p.
  apply (@all_devices_created env 7 "/job:worker" p [] Factory.Hosts.platform).
  - reflexivity.
  - intros i Hi. reflexivity.
Defined.

(** X16.  When an ordinal of the platform is the first that cannot be set
    up, [CreateDevices] stops there: the devices of the ordinals before it
    stay appended to the vector, no later ordinal is initialised, and the
    call returns the status of the node context unchanged when the
    initialisation failed, and otherwise the status of the device handed to
    [AppendToMessage] with the name of the compilation device and the
    ordinal. *)
Theorem creation_stops_at_first_failure (env : Factory.Env)
        (so : Factory.SessionOptions) (prefix : string) (p : Factory.Process)
        (devices : list Factory.Device)
        (platform : Factory.TpuPlatformInterface) (k : Z) :
  Factory.GetRegisteredPlatform env = Some platform ->
  (0 <= k < Factory.VisibleDeviceCount platform)%Z ->
  (forall i, (0 <= i < k)%Z -> Factory.sets_up env so prefix platform i = true) ->
  Factory.sets_up env so prefix platform k = false ->
  exists p' created,
    Factory.CreateDevices env so prefix p devices
    = (if ok (Factory.TpuNodeContext_Initialize env k)
       then Factory.AppendToMessage env
              (Factory.Device_UseGpuDeviceInfo env
                 (Factory.make_unique so
                    (Factory.device_options env platform prefix k)))
              [Factory.Str "while setting up ";
               Factory.Str (Factory.DEVICE_TPU_XLA_JIT env);
               Factory.Str " device number "; Factory.Int k]
       else Factory.TpuNodeContext_Initialize env k,
       p', devices ++ created) /\
    List.length created = Z.to_nat k /\
    (forall j d,
        nth_error created j = Some d ->
        Factory.XlaDevice.device_ordinal (Factory.options d) = Z.of_nat j /\
        Factory.allows_sync_on_completion d = Some false) /\
    Factory.count Factory.is_initialize (Factory.since p p') = S (Z.to_nat k) /\
    (forall i r, In (Factory.Initialize i r) (Factory.since p p') -> (0 <= i <= k)%Z).
Proof.
  intros Hp Hk Hall Hbad.
  destruct (@CreateDevices_prepare env so prefix p devices platform Hp)
    as (p0 & before & after & -> & _ & Hflag & _ & _ & _ & Hcalls & -> & ->).
  destruct (@create_devices_stops env so prefix platform (Z.to_nat k)
              (Z.to_nat (Factory.VisibleDeviceCount platform)) 0%Z p0 devices)
    as (p' & E & Hc).
  { lia. }
  { intros; apply Hall; lia. }
  { now replace (0 + Z.of_nat (Z.to_nat k))%Z with k by lia. }
  replace (0 + Z.of_nat (Z.to_nat k))%Z with k in * by lia.
  rewrite E. exists p'. eexists. split; [reflexivity|].
  split; [now rewrite length_map, ordinals_length|].
  split.
  - intros j d H. rewrite nth_error_map in H.
    destruct (nth_error _ j) as [i|] eqn:Ei; [|discriminate].
    apply ordinals_nth in Ei. rewrite Z.add_0_l in Ei. subst i.
    injection H as <-. unfold Factory.configure.
    destruct (Factory.tpu_xla_device_failure_closes_chips_flag p0);
      split; reflexivity.
  - rewrite Hcalls, <- app_assoc in Hc. rewrite (@since_app _ _ _ Hc).
    match type of Hc with
    | _ = _ ++ ?pre ++ _ =>
        destruct (@no_setup_no_initialize pre) as [Hn Hnot];
          [apply prepare_no_setup; reflexivity|]
    end.
    split.
    + rewrite factory_count_app, Hn, factory_count_app.
      rewrite count_initialize_setup_calls, ordinals_length.
      unfold Factory.setup_calls.
      destruct (ok (Factory.TpuNodeContext_Initialize env k)); cbn; lia.
    + intros i r H. rewrite !in_app_iff in H.
      destruct H as [H|[H|H]].
      * exfalso. apply (Hnot i r). rewrite in_app_iff. exact H.
      * apply setup_calls_ordinal, ordinals_In in H. lia.
      * unfold Factory.setup_calls in H. destruct H as [H|H].
        -- injection H as <- _. lia.
        -- destruct (ok (Factory.TpuNodeContext_Initialize env k)); [|destruct H].
           destruct H as [H|[]]. discriminate H.
Qed.

Lemma creation_stops_at_first_failure_witness :
  let env := Factory.Hosts.broken in
  let p := Factory.Hosts.start in
  exists p' created,
    Factory.CreateDevices env 7 "/job:worker" p []
    = (Error error.UNAVAILABLE "chip is down", p', [] ++ created) /\
    List.length created = 2 /\
    (forall j d,
        nth_error created j = Some d ->
        Factory.XlaDevice.device_ordinal (Factory.options d) = Z.of_nat j /\
        Factory.allows_sync_on_completion d = Some false) /\
    Factory.count Factory.is_initialize (Factory.since p p') = 3 /\
    (forall i r, In (Factory.Initialize i r) (Factory.since p p') -> (0 <= i <= 2)%Z).
Proof.
  intros env p.
  apply (@creation_stops_at_first_failure env 7 "/job:worker" p []
           Factory.Hosts.platform 2).
  - reflexivity.
  - cbn. lia.
  - intros i Hi. assert (E : i = 0%Z \/ i = 1%Z) by lia.
    destruct E as [-> | ->]; reflexivity.
  - reflexivity.
Defined.

(** ** Registrations *)

Lemma serve_step (p : Factory.Process) (r : Factory.Request) :
  Factory.register_tpu_tpu_copy (Factory.serve p r)
  = Factory.register_tpu_tpu_copy p || Factory.wants_copy_registration r /\
  Factory.registrations (Factory.serve p r)
  = Factory.registrations p || Factory.has_platform r /\
  Factory.count Factory.is_copy_registration (Factory.calls (Factory.serve p r))
  = Factory.count Factory.is_copy_registration (Factory.calls p)
    + (if Factory.wants_copy_registration r && negb (Factory.register_tpu_tpu_copy p)
       then 1 else 0) /\
  Factory.count Factory.is_device_kernels (Factory.calls (Factory.serve p r))
  = Factory.count Factory.is_device_kernels (Factory.calls p)
    + (if Factory.has_platform r && negb (Factory.registrations p) then 1 else 0) /\
  Factory.count Factory.is_compilation_device (Factory.calls (Factory.serve p r))
  = Factory.count Factory.is_compilation_device (Factory.calls p)
    + (if Factory.has_platform r then 1 else 0).
Proof.
  destruct r as [a c u | env so prefix].
  - cbn. rewrite !orb_false_r, !Nat.add_0_r. now repeat split.
  - cbn [Factory.serve Factory.wants_copy_registration Factory.has_platform].
    destruct (Factory.GetRegisteredPlatform env) as [platform|] eqn:Hp.
    + destruct (@CreateDevices_prepare env so prefix p [] platform Hp)
        as (p0 & before & after & -> & _ & _ & _ & Hcopy & Hreg & Hcalls & -> & ->).
      destruct (@create_devices_frame env so prefix platform
                  (Z.to_nat (Factory.VisibleDeviceCount platform)) 0%Z p0 [])
        as (st & p' & new & created & -> & Hsame & Hc & Hnew & _).
      cbn [fst snd]. destruct Hsame as (_ & _ & _ & -> & ->).
      rewrite Hc, Hcalls, Hcopy, Hreg.
      rewrite !factory_count_app.
      rewrite !(@forallb_setup_count _ new) by (trivial; now intros []).
      destruct (Factory.ShouldRegisterTpuDeviceToDeviceCopy platform),
        (Factory.register_tpu_tpu_copy p), (Factory.registrations p);
        cbn; repeat split; lia.
    + unfold Factory.CreateDevices. rewrite Hp. cbn.
      rewrite !orb_false_r, !Nat.add_0_r. now repeat split.
Qed.

Lemma served (requests : list Factory.Request) (p : Factory.Process) :
  Factory.register_tpu_tpu_copy (fold_left Factory.serve requests p)
  = Factory.register_tpu_tpu_copy p
    || existsb Factory.wants_copy_registration requests /\
  Factory.registrations (fold_left Factory.serve requests p)
  = Factory.registrations p || existsb Factory.has_platform requests /\
  (Factory.count Factory.is_copy_registration (Factory.calls p)
   = (if Factory.register_tpu_tpu_copy p then 1 else 0) ->
   Factory.count Factory.is_copy_registration
     (Factory.calls (fold_left Factory.serve requests p))
   = if Factory.register_tpu_tpu_copy (fold_left Factory.serve requests p)
     then 1 else 0) /\
  (Factory.count Factory.is_device_kernels (Factory.calls p)
   = (if Factory.registrations p then 1 else 0) ->
   Factory.count Factory.is_device_kernels
     (Factory.calls (fold_left Factory.serve requests p))
   = if Factory.registrations (fold_left Factory.serve requests p)
     then 1 else 0) /\
  Factory.count Factory.is_compilation_device
    (Factory.calls (fold_left Factory.serve requests p))
  = Factory.count Factory.is_compilation_device (Factory.calls p)
    + List.length (filter Factory.has_platform requests).
Proof.
  revert p. induction requests as [|r requests IH]; intros p.
  - cbn. rewrite !orb_false_r, Nat.add_0_r. now repeat split.
  - cbn [fold_left existsb filter].
    destruct (IH (Factory.serve p r)) as (H1 & H2 & H3 & H4 & H5).
    destruct (serve_step p r) as (S1 & S2 & S3 & S4 & S5).
    rewrite H1, H2, H5, S1, S2, S5 in *. rewrite !orb_assoc.
    split; [reflexivity|]. split; [reflexivity|].
    split; [|split].
    + intros E. apply H3. rewrite S3, E.
      destruct (Factory.register_tpu_tpu_copy p),
        (Factory.wants_copy_registration r); reflexivity.
    + intros E. apply H4. rewrite S4, E.
      destruct (Factory.registrations p), (Factory.has_platform r); reflexivity.
    + destruct (Factory.has_platform r); cbn [List.length]; lia.
Qed.

(** X17.  However often the factory is asked for devices and the flags are
    registered, and whatever the collaborators answer, the copy function is
    registered with [CopyTensor] at most once in a process, namely when
    some call had a platform that asked for it, and the XLA device kernels
    are registered once when some call had a platform at all; the
    compilation device is registered again by every call that has a
    platform. *)
Theorem registrations_happen_once (copy : State) (requests : list Factory.Request) :
  Factory.count Factory.is_copy_registration
    (Factory.calls (fold_left Factory.serve requests (Factory.initial copy)))
  = (if existsb Factory.wants_copy_registration requests then 1 else 0) /\
  Factory.count Factory.is_device_kernels
    (Factory.calls (fold_left Factory.serve requests (Factory.initial copy)))
  = (if existsb Factory.has_platform requests then 1 else 0) /\
  Factory.count Factory.is_compilation_device
    (Factory.calls (fold_left Factory.serve requests (Factory.initial copy)))
  = List.length (filter Factory.has_platform requests).
Proof.
  destruct (served requests (Factory.initial copy)) as (H1 & H2 & H3 & H4 & H5).
  rewrite H3, H4, H5 by reflexivity. rewrite H1, H2. now repeat split.
Qed.

(** X18.  The flags of the latest [RegisterTpuNodeDevice] are those a call
    of [CreateDevices] works with, also in a process that created devices
    under other flags before: the compilation device is registered once by
    the call, before any ordinal is set up, under [DEVICE_TPU_NODE], for
    the compilation device [DEVICE_TPU_XLA_JIT] and with the autoclustering
    policy of the flag; every device the call appends, whether or not the
    call succeeds, closes the TPU host on a device error exactly when the
    flag says so and does not allow sync on completion; the substream flag
    of the copy is the registered one. *)
Theorem latest_flags_apply (env : Factory.Env) (so : Factory.SessionOptions)
        (prefix : string) (p : Factory.Process) (devices : list Factory.Device)
        (platform : Factory.TpuPlatformInterface) (a c u : bool) :
  Factory.GetRegisteredPlatform env = Some platform ->
  exists status p' created before r after,
    Factory.CreateDevices env so prefix (Factory.RegisterTpuNodeDevice a c u p) devices
    = (status, p', devices ++ created) /\
    Factory.since p p'
    = before ++ Factory.RegisterCompilationDevice (Factory.DEVICE_TPU_NODE env) r
             :: after /\
    Factory.XlaOpRegistry.compilation_device_name r = Factory.DEVICE_TPU_XLA_JIT env /\
    Factory.XlaOpRegistry.autoclustering_policy r
    = (if a then Factory.XlaOpRegistry.kAlways
       else Factory.XlaOpRegistry.kIfExplicitlyRequested) /\
    Factory.count Factory.is_setup before = 0 /\
    Factory.count Factory.is_compilation_device before = 0 /\
    Factory.count Factory.is_compilation_device after = 0 /\
    (forall d, In d created ->
               Factory.handle_device_error_callback d
               = (if c then Some Factory.CloseTpuHost else None) /\
               Factory.allows_sync_on_completion d = Some false) /\
    tpu_use_substreams_for_cross_tpu_device_transfers_flag (Factory.copy p') = u.
Proof.
  intros Hp.
  destruct (@CreateDevices_prepare env so prefix
              (Factory.RegisterTpuNodeDevice a c u p) devices platform Hp)
    as (p0 & before & after & -> & _ & Hflag & Hcopy & _ & _ & Hcalls & -> & ->).
  destruct (@create_devices_frame env so prefix platform
              (Z.to_nat (Factory.VisibleDeviceCount platform)) 0%Z p0 devices)
    as (st & p' & new & created & -> & Hsame & Hc & Hnew & Hcreated).
  destruct Hsame as (_ & _ & Hcopy' & _ & _).
  rewrite Hcalls in Hc.
  cbn [Factory.RegisterTpuNodeDevice Factory.calls Factory.register_tpu_tpu_copy
       Factory.registrations Factory.tpu_xla_device_failure_closes_chips_flag
       Factory.copy] in *.
  rewrite <- !app_assoc, <- app_comm_cons in Hc.
  exists st, p', created. do 3 eexists.
  split; [reflexivity|].
  split; [rewrite (@since_app _ _ _ Hc); reflexivity|].
  split; [reflexivity|]. split; [reflexivity|].
  split; [now destruct (_ && _)|]. split; [now destruct (_ && _)|].
  split.
  { rewrite factory_count_app.
    rewrite (@forallb_setup_count _ new) by (trivial; now intros []).
    now destruct (Factory.registrations p). }
  split.
  - intros d Hd. rewrite Forall_forall in Hcreated.
    destruct (Hcreated d Hd) as [j ->].
    unfold Factory.configure. rewrite Hflag. now destruct c.
  - rewrite Hcopy', Hcopy. now destruct (Factory.copy p).
Qed.

Lemma latest_flags_apply_witness :
  let env := Factory.Hosts.broken in
  let p := Factory.Hosts.start in
  exists status p' created before r after,
    Factory.CreateDevices env 7 "/job:worker"
      (Factory.RegisterTpuNodeDevice true false false p) []
    = (status, p', [] ++ created) /\
    Factory.since p p'
    = before ++ Factory.RegisterCompilationDevice (Factory.DEVICE_TPU_NODE env) r
             :: after /\
    Factory.XlaOpRegistry.compilation_device_name r = Factory.DEVICE_TPU_XLA_JIT env /\
    Factory.XlaOpRegistry.autoclustering_policy r = Factory.XlaOpRegistry.kAlways /\
    Factory.count Factory.is_setup before = 0 /\
    Factory.count Factory.is_compilation_device before = 0 /\
    Factory.count Factory.is_compilation_device after = 0 /\
    (forall d, In d created ->
               Factory.handle_device_error_callback d = None /\
               Factory.allows_sync_on_completion d = Some false) /\
    tpu_use_substreams_for_cross_tpu_device_transfers_flag (Factory.copy p') = false.
Proof.
  intros env p.
  apply (@latest_flags_apply env 7 "/job:worker" p [] Factory.Hosts.platform
           true false false).
  reflexivity.
Defined.
